(** * bigip_virtual_server: convergence logic of the F5 BIG-IP virtual-server module

    A shallow embedding of [network/f5/bigip_virtual_server.py].

    The module talks to the appliance only through iControl calls on the
    [api] object.  A module function is therefore embedded as a finite tree
    of remote calls ([prog]): every node is one iControl call, and the
    continuation receives what the appliance answered, a value or a raised
    exception.  Running a tree against a handler (the appliance, or a test
    double of it) yields the outcome, the appliance state afterwards and
    the list of calls that were issued, in order. *)

From Stdlib Require Import ZArith String List Bool Lia.
From stdpp Require Import base strings gmap.
Import ListNotations.

Open Scope string_scope.

(** ** Python values used by the module *)

(** Exceptions that reach the module.  [bigsuds.OperationFailed] is the
    class the module inspects; every other exception is an [Exception]
    too, so the clauses [except Exception] catch both. *)
Inductive exn : Type :=
| OperationFailed (msg : string)
| OtherException (msg : string).

(** [str(e)] *)
Definition str (e : exn) : string :=
  match e with
  | OperationFailed msg => msg
  | OtherException msg => msg
  end.

(** [needle in hay] on strings. *)
Fixpoint contains (needle hay : string) : bool :=
  String.prefix needle hay ||
  match hay with
  | EmptyString => false
  | String _ rest => contains needle rest
  end.

(** [x in l] on a list of strings. *)
Definition mem (x : string) (l : list string) : bool :=
  existsb (String.eqb x) l.

(** [{'profile_context': ..., 'profile_name': ...}] *)
Record VSProfile : Type := mkProfile {
  profile_context : string;
  profile_name : string
}.

(** [{'address': ..., 'port': ...}] *)
Record Destination : Type := mkDestination {
  dest_address : string;
  dest_port : Z
}.

(** The [result] dictionary handed to [exit_json]. *)
Record Result : Type := mkResult {
  changed : bool;
  deleted : option string
}.

(** ** The iControl calls the module issues

    [api.LocalLB.VirtualServer.*] and [api.System.Session.*].  Each call
    names one virtual server; the one-element lists the Python code wraps
    around its arguments and unwraps with [[0]] from the answers are left
    out.  The constant arguments of [create] (protocol [PROTOCOL_TCP],
    wildmask [255.255.255.255], resource type [RESOURCE_TYPE_POOL]) are
    left out as well. *)
Module Api.

Inductive call : Type :=
| get_object_status (vs : string)
| create (name address : string) (port : Z)
         (default_pool_name : option string) (profiles : list VSProfile)
| delete_virtual_server (vs : string)
| get_profile (vs : string)
| remove_profile (vs : string) (profiles : list VSProfile)
| add_profile (vs : string) (profiles : list VSProfile)
| get_source_address_translation_type (vs : string)
| set_source_address_translation_none (vs : string)
| set_source_address_translation_automap (vs : string)
| get_default_pool_name (vs : string)
| set_default_pool_name (vs : string) (default_pool : string)
| get_destination_v2 (vs : string)
| set_destination_v2 (vs : string) (destination : Destination)
| get_description (vs : string)
| set_description (vs : string) (description : string)
| start_transaction
| submit_transaction.

(** What a successful call hands back to the module. *)
Definition reply (c : call) : Type :=
  match c with
  | get_profile _ => list VSProfile
  | get_source_address_translation_type _ => string
  | get_default_pool_name _ => string
  | get_destination_v2 _ => Destination
  | get_description _ => string
  | _ => unit
  end.

(** Calls that change the appliance's configuration. *)
Definition is_mutating (c : call) : bool :=
  match c with
  | get_object_status _ | get_profile _
  | get_source_address_translation_type _ | get_default_pool_name _
  | get_destination_v2 _ | get_description _ => false
  | _ => true
  end.

End Api.

(** ** Programs *)

(** How an invocation leaves through the host framework:
    [module.exit_json] with the result dictionary, or [module.fail_json]
    with a message.  Both end the process (SystemExit), which no
    [except Exception] catches. *)
Inductive exit : Type :=
| exit_json (r : Result)
| fail_json (msg : string).

Inductive prog (A : Type) : Type :=
| Ret (a : A)
| Raise (e : exn)
| Exit (x : exit)
| Call (c : Api.call) (k : exn + Api.reply c -> prog A).

Arguments Ret {A} a.
Arguments Raise {A} e.
Arguments Exit {A} x.
Arguments Call {A} c k.

(** [try: p  except Exception, e: h e  else: k a] -- the [else] part
    runs when [p] raised nothing, and what it raises is not caught. *)
Fixpoint try_except_else {A B} (p : prog A) (h : exn -> prog B)
         (k : A -> prog B) : prog B :=
  match p with
  | Ret a => k a
  | Raise e => h e
  | Exit x => Exit x
  | Call c f => Call c (fun r => try_except_else (f r) h k)
  end.

(** Sequencing: an exception of [p] propagates. *)
Definition bind {A B} (p : prog A) (k : A -> prog B) : prog B :=
  try_except_else p Raise k.

(** [try: p  except Exception, e: h e] *)
Definition try_except {A} (p : prog A) (h : exn -> prog A) : prog A :=
  try_except_else p h Ret.

(** One remote call; a failure of the call is raised. *)
Definition invoke (c : Api.call) : prog (Api.reply c) :=
  Call c (fun r => match r with inl e => Raise e | inr v => Ret v end).

Notation "'do' x <- p ;; k" := (bind p (fun x => k))
  (at level 10, x name, p at level 99, k at level 200,
   format "'[v' 'do'  x  <-  p  ;;  '/' k ']'").

(** The clause [except bigsuds.OperationFailed, e: if pat in str(e): k
    else: raise]; an exception of another class is not caught. *)
Definition on_operation_failed {A} (pat : string) (k : prog A) (e : exn) : prog A :=
  match e with
  | OperationFailed msg => if contains pat msg then k else Raise e
  | OtherException _ => Raise e
  end.

(** ** Running a program against an appliance *)

Inductive outcome (A : Type) : Type :=
| Returned (a : A)
| Raised (e : exn)
| Exited (x : exit).

Arguments Returned {A} a.
Arguments Raised {A} e.
Arguments Exited {A} x.

Record run_result (R A : Type) : Type := mkRun {
  out : outcome A;
  final : R;
  trace : list Api.call
}.

Arguments mkRun {R A} out final trace.
Arguments out {R A} r.
Arguments final {R A} r.
Arguments trace {R A} r.

(** An appliance: a state and its answer to each call. *)
Definition handler (R : Type) : Type :=
  forall c : Api.call, R -> (exn + Api.reply c) * R.

Fixpoint run {R A} (handle : handler R) (p : prog A) (s : R) : run_result R A :=
  match p with
  | Ret a => mkRun (Returned a) s []
  | Raise e => mkRun (Raised e) s []
  | Exit x => mkRun (Exited x) s []
  | Call c k =>
      let '(r, s') := handle c s in
      let rest := run handle (k r) s' in
      mkRun (out rest) (final rest) (c :: trace rest)
  end.

(** ** Helpers of the host framework

    The module imports [fq_name], [fq_list_names] and [f5_parse_arguments]
    from the framework's F5 helper ([ansible.module_utils.f5]), which is
    not part of this source tree. *)

(** Modelled from the spec: [fq_name] qualifies a name with the partition
    ("name, globally qualified by a partition/namespace prefix"; "partition:
    namespace prefix applied to name and to pool/profile references").  A
    name that already starts with a slash is qualified already and is kept. *)
Definition fq_name (partition name : string) : string :=
  if String.prefix "/" name then name
  else "/" ++ partition ++ "/" ++ name.

(** [fq_name] on an optional input: an unset value stays unset. *)
Definition fq_name_opt (partition : string) (name : option string) : option string :=
  option_map (fq_name partition) name.

(** Modelled from the spec: [fq_list_names] qualifies every name of a
    list; an unset list stays unset. *)
Definition fq_list_names (partition : string) (names : option (list string))
  : option (list string) :=
  option_map (map (fq_name partition)) names.

(** ** The module's functions *)

(** Python truth value of an optional string and of an optional integer:
    [None], the empty string and zero are false. *)
Definition truthy_str (s : string) : bool := negb (s =? "").
Definition truthy_int (n : Z) : bool := negb (n =? 0)%Z.

Definition vs_exists (vs : string) : prog bool :=
  try_except_else (invoke (Api.get_object_status vs))
    (on_operation_failed "was not found" (Ret false))
    (fun _ => Ret true).

(** The profile every created server starts with. *)
Definition _profiles : list VSProfile :=
  [mkProfile "PROFILE_CONTEXT_TYPE_ALL" "tcp"].

(** [vs_create] catches every [Exception] of the create call, prints its
    arguments and returns normally. *)
Definition vs_create (name destination : string) (port : Z) (pool : option string)
  : prog unit :=
  try_except
    (invoke (Api.create name destination port pool _profiles))
    (fun e => Ret tt).

Definition vs_remove (name : string) : prog unit :=
  invoke (Api.delete_virtual_server name).

Definition get_profiles (name : string) : prog (list VSProfile) :=
  invoke (Api.get_profile name).

Definition all_context (x : string) : VSProfile :=
  mkProfile "PROFILE_CONTEXT_TYPE_ALL" x.

(** The two [for] loops of [set_profiles]: what to attach, what to detach. *)
Definition to_add_profiles (profiles_list current_profiles : list string) : list VSProfile :=
  map all_context
      (List.filter (fun x => negb (mem x current_profiles)) profiles_list).

Definition to_del_profiles (profiles_list current_profiles : list string) : list VSProfile :=
  map all_context
      (List.filter (fun x => negb (mem x profiles_list) && negb (x =? "/Common/tcp"))
                   current_profiles).

Definition set_profiles (name : string) (profiles_list : option (list string)) : prog bool :=
  match profiles_list with
  | None => Ret false
  | Some profiles_list =>
      do current <- get_profiles name ;;
      let current_profiles := map profile_name current in
      let to_add := to_add_profiles profiles_list current_profiles in
      let to_del := to_del_profiles profiles_list current_profiles in
      let changed := false in
      do changed <-
         (if (0 <? length to_del)%nat
          then do _ <- invoke (Api.remove_profile name to_del) ;; Ret true
          else Ret changed) ;;
      do changed <-
         (if (0 <? length to_add)%nat
          then do _ <- invoke (Api.add_profile name to_add) ;; Ret true
          else Ret changed) ;;
      Ret changed
  end.

Definition get_snat_type (name : string) : prog string :=
  invoke (Api.get_source_address_translation_type name).

Definition set_snat (name : string) (snat : option string) : prog bool :=
  do current_state <- get_snat_type name ;;
  let update := false in
  match snat with
  | None => Ret update
  | Some snat =>
      do update <-
         (if (snat =? "None") && negb (current_state =? "SRC_TRANS_NONE")
          then do _ <- invoke (Api.set_source_address_translation_none name) ;; Ret true
          else Ret update) ;;
      do update <-
         (if (snat =? "Automap") && negb (current_state =? "SRC_TRANS_AUTOMAP")
          then do _ <- invoke (Api.set_source_address_translation_automap name) ;; Ret true
          else Ret update) ;;
      Ret update
  end.

Definition get_pool (name : string) : prog string :=
  invoke (Api.get_default_pool_name name).

Definition set_pool (name : string) (pool : option string) : prog bool :=
  do current_pool <- get_pool name ;;
  let updated := false in
  match pool with
  | Some pool =>
      (* pool is not None and (pool != current_pool) *)
      if negb (pool =? current_pool)
      then do _ <- invoke (Api.set_default_pool_name name pool) ;; Ret true
      else Ret updated
  | None => Ret updated
  end.

Definition get_destination (name : string) : prog Destination :=
  invoke (Api.get_destination_v2 name).

Definition set_destination (name : string) (destination : option string)
           (port : option Z) : prog bool :=
  do current_destination <- get_destination name ;;
  let updated := false in
  match destination, port with
  | Some destination, Some port =>
      (* (destination is not None and port is not None) and
         (destination != current['address'] or port != current['port']) *)
      if negb (destination =? dest_address current_destination)
         || negb (port =? dest_port current_destination)%Z
      then do _ <- invoke (Api.set_destination_v2 name (mkDestination destination port)) ;;
           Ret true
      else Ret updated
  | _, _ => Ret updated
  end.

Definition get_description (name : string) : prog string :=
  invoke (Api.get_description name).

Definition set_description (name : string) (description : option string) : prog bool :=
  do current_description <- get_description name ;;
  let updated := false in
  match description with
  | Some description =>
      (* description is not None and current_description != description *)
      if negb (current_description =? description)
      then do _ <- invoke (Api.set_description name description) ;; Ret true
      else Ret updated
  | None => Ret updated
  end.

(** ** The invocation *)

Inductive State : Type := present | absent | enabled | disabled.

(** The [AnsibleModule] object: the check-mode flag and the parameters the
    argument spec declares.  [state] is one of the four choices (default
    [present]), [name] is required, [partition] has the framework's default;
    the other parameters are [None] when not supplied.  The connection
    parameters (server, user, password, validate_certs) only reach the
    transport and are left out. *)
Record AnsibleModule : Type := mkModule {
  check_mode : bool;
  param_state : State;
  param_partition : string;
  param_name : string;
  param_destination : option string;
  param_port : option Z;
  param_all_profiles : option (list string);
  param_pool : option string;
  param_description : option string;
  param_snat : option string
}.

(** The guard [1 > port > 65535], a chained comparison:
    [1 > port and port > 65535].  With [port] unset, Python 2 orders [None]
    below every integer: [1 > None] holds and [None > 65535] does not. *)
Definition port_guard (port : option Z) : bool :=
  match port with
  | Some port => (1 >? port)%Z && (port >? 65535)%Z
  | None => true && false
  end.

Definition default_result : Result := mkResult false None.

(** [state == 'absent'] *)
Definition main_absent (check_mode : bool) (name : string) : prog Result :=
  let result := default_result in
  if negb check_mode then
    do found <- vs_exists name ;;
    if found then
      try_except_else (vs_remove name)
        (on_operation_failed "was not found" (Ret (mkResult false (deleted result))))
        (fun _ => Ret (mkResult true (Some name)))
    else Ret result
  else
    (* check-mode return value *)
    Ret (mkResult true None).

(** [state == 'present'], first part: the server is created when it does
    not exist.  Yields [result] and the flag [update]. *)
Definition main_present_create (check_mode : bool) (name : string)
           (destination : option string) (port : option Z)
           (all_profiles : option (list string)) (pool description snat : option string)
  : prog (Result * bool) :=
  let result := default_result in
  let update := false in
  do found <- vs_exists name ;;
  if negb found then
    match destination, port with
    | Some destination, Some port =>
        if negb (truthy_str destination) || negb (truthy_int port) then
          Exit (fail_json "both destination and port must be supplied to create a VS")
        else if negb check_mode then
          try_except_else
            (do _ <- vs_create name destination port pool ;;
             Ret (mkResult true None))
            (on_operation_failed "already exists" (Ret (result, true)))
            (fun result =>
               do _ <- set_profiles name all_profiles ;;
               do _ <- set_snat name snat ;;
               do _ <- set_description name description ;;
               Ret (result, update))
        else
          (* check-mode return value *)
          Ret (mkResult true None, update)
    | _, _ =>
        Exit (fail_json "both destination and port must be supplied to create a VS")
    end
  else Ret (result, true).

Definition or_changed (r : Result) (b : bool) : Result :=
  mkResult (changed r || b) (deleted r).

(** [state == 'present'], second part: [if update: ...]. *)
Definition main_present_update (check_mode : bool) (partition name : string)
           (destination : option string) (port : option Z)
           (all_profiles : option (list string)) (pool description snat : option string)
           (result : Result) : prog Result :=
  if negb check_mode then
    do _ <- invoke Api.start_transaction ;;
    do c <- set_destination name (fq_name_opt partition destination) port ;;
    let result := or_changed result c in
    do c <- set_pool name pool ;;
    let result := or_changed result c in
    do c <- set_description name description ;;
    let result := or_changed result c in
    do c <- set_snat name snat ;;
    let result := or_changed result c in
    do c <- set_profiles name all_profiles ;;
    let result := or_changed result c in
    do _ <- invoke Api.submit_transaction ;;
    Ret result
  else
    (* check-mode return value *)
    Ret (mkResult true None).

(** [state in ('disabled', 'enabled')]: [name] is a string here (the
    parameter is required), so the test [name is None] fails and nothing
    is done outside check mode. *)
Definition main_enabled_disabled (check_mode : bool) : prog Result :=
  let result := default_result in
  if negb check_mode then Ret result
  else
    (* check-mode return value *)
    Ret (mkResult true None).

(** The body of the [try] block of [main]: the branch for the desired
    state. *)
Definition main_try (module : AnsibleModule) : prog Result :=
  let state := param_state module in
  let partition := param_partition module in
  let name := fq_name partition (param_name module) in
  let destination := param_destination module in
  let port := param_port module in
  let all_profiles := fq_list_names partition (param_all_profiles module) in
  let pool := fq_name_opt partition (param_pool module) in
  let description := param_description module in
  let snat := param_snat module in
  match state with
  | absent => main_absent (check_mode module) name
  | present =>
      do ru <- main_present_create (check_mode module) name destination port
                                   all_profiles pool description snat ;;
      let '(result, update) := ru in
      if update : bool then
        main_present_update (check_mode module) partition name destination port
                            all_profiles pool description snat result
      else Ret result
  | enabled | disabled => main_enabled_disabled (check_mode module)
  end.

Definition main (module : AnsibleModule) : prog unit :=
  let port := param_port module in
  do _ <- (if port_guard port
           then Exit (fail_json "valid ports must be in range 1 - 65535")
           else Ret tt) ;;
  do result <-
     try_except (main_try module)
                (fun e => Exit (fail_json ("received exception: " ++ str e))) ;;
  Exit (exit_json result).

(** ** A test double of the appliance

    The appliance itself is an external collaborator.  This double keeps
    the configured virtual servers in a finite map and answers the calls
    from it: a getter reports what is stored, a setter stores what it is
    given, a call that names an unknown server fails with "was not found",
    and creating a server that is there fails with "already exists".  A
    created server has the destination, the pool and the profiles the create
    call carries, as they were sent, no description and no source
    translation.  Writes take effect at once; the transaction calls are
    accepted and change nothing. *)

Record VirtualServer : Type := mkVS {
  vs_destination : Destination;
  vs_pool : string;
  vs_description : string;
  vs_snat : string;
  vs_profiles : list VSProfile
}.

Module Appliance.

Definition not_found (vs : string) : exn :=
  OperationFailed ("The requested virtual server (" ++ vs ++ ") was not found.").

Definition already_exists (vs : string) : exn :=
  OperationFailed ("The requested virtual server (" ++ vs ++ ") already exists in partition.").

Definition created (address : string) (port : Z) (pool : option string)
           (profiles : list VSProfile) : VirtualServer :=
  mkVS (mkDestination address port)
       (default "" pool) "" "SRC_TRANS_NONE"
       profiles.

Definition with_destination (d : Destination) (v : VirtualServer) : VirtualServer :=
  mkVS d (vs_pool v) (vs_description v) (vs_snat v) (vs_profiles v).
Definition with_pool (p : string) (v : VirtualServer) : VirtualServer :=
  mkVS (vs_destination v) p (vs_description v) (vs_snat v) (vs_profiles v).
Definition with_description (d : string) (v : VirtualServer) : VirtualServer :=
  mkVS (vs_destination v) (vs_pool v) d (vs_snat v) (vs_profiles v).
Definition with_snat (t : string) (v : VirtualServer) : VirtualServer :=
  mkVS (vs_destination v) (vs_pool v) (vs_description v) t (vs_profiles v).
Definition with_profiles (ps : list VSProfile) (v : VirtualServer) : VirtualServer :=
  mkVS (vs_destination v) (vs_pool v) (vs_description v) (vs_snat v) ps.

Definition detach (ps : list VSProfile) (v : VirtualServer) : VirtualServer :=
  with_profiles
    (List.filter (fun p => negb (mem (profile_name p) (map profile_name ps)))
                 (vs_profiles v)) v.
Definition attach (ps : list VSProfile) (v : VirtualServer) : VirtualServer :=
  with_profiles (vs_profiles v ++ ps) v.

Definition read {T} (vs : string) (f : VirtualServer -> T)
           (s : gmap string VirtualServer) : (exn + T) * gmap string VirtualServer :=
  match s !! vs with
  | Some v => (inr (f v), s)
  | None => (inl (not_found vs), s)
  end.

Definition write (vs : string) (f : VirtualServer -> VirtualServer)
           (s : gmap string VirtualServer) : (exn + unit) * gmap string VirtualServer :=
  match s !! vs with
  | Some v => (inr tt, <[vs := f v]> s)
  | None => (inl (not_found vs), s)
  end.

Definition handle : handler (gmap string VirtualServer) :=
  fun c s =>
    match c return (exn + Api.reply c) * gmap string VirtualServer with
    | Api.get_object_status vs => read vs (fun _ => tt) s
    | Api.create name address port pool profiles =>
        match s !! name with
        | Some _ => (inl (already_exists name), s)
        | None => (inr tt, <[name := created address port pool profiles]> s)
        end
    | Api.delete_virtual_server vs =>
        match s !! vs with
        | Some _ => (inr tt, delete vs s)
        | None => (inl (not_found vs), s)
        end
    | Api.get_profile vs => read vs vs_profiles s
    | Api.remove_profile vs ps => write vs (detach ps) s
    | Api.add_profile vs ps => write vs (attach ps) s
    | Api.get_source_address_translation_type vs => read vs vs_snat s
    | Api.set_source_address_translation_none vs => write vs (with_snat "SRC_TRANS_NONE") s
    | Api.set_source_address_translation_automap vs =>
        write vs (with_snat "SRC_TRANS_AUTOMAP") s
    | Api.get_default_pool_name vs => read vs vs_pool s
    | Api.set_default_pool_name vs p => write vs (with_pool p) s
    | Api.get_destination_v2 vs => read vs vs_destination s
    | Api.set_destination_v2 vs d => write vs (with_destination d) s
    | Api.get_description vs => read vs vs_description s
    | Api.set_description vs d => write vs (with_description d) s
    | Api.start_transaction => (inr tt, s)
    | Api.submit_transaction => (inr tt, s)
    end.

(** A concurrent actor: [rival c] changes the configuration just before
    the module's call [c] reaches the appliance. *)
Definition with_rival (rival : Api.call -> gmap string VirtualServer -> gmap string VirtualServer)
  : handler (gmap string VirtualServer) :=
  fun c s => handle c (rival c s).

(** The rival creates [vs] right before the module's own create call. *)
Definition creates_first (vs : string) (v : VirtualServer)
  : Api.call -> gmap string VirtualServer -> gmap string VirtualServer :=
  fun c s =>
    match c with
    | Api.create name _ _ _ _ => if name =? vs then <[vs := v]> s else s
    | _ => s
    end.

(** The rival deletes [vs] right before the module's own delete call. *)
Definition deletes_first (vs : string)
  : Api.call -> gmap string VirtualServer -> gmap string VirtualServer :=
  fun c s =>
    match c with
    | Api.delete_virtual_server name => if name =? vs then delete vs s else s
    | _ => s
    end.

End Appliance.

(** Sample configurations and invocations used by the examples below. *)

Definition sample_vs : VirtualServer :=
  mkVS (mkDestination "/Common/10.0.0.1" 443) "/Common/web" "front end"
       "SRC_TRANS_NONE"
       [all_context "/Common/tcp"; all_context "/Common/http"].

Definition one_server : gmap string VirtualServer :=
  {[ "/Common/vs1" := sample_vs ]}.

Definition sample_module (check : bool) (st : State) : AnsibleModule :=
  mkModule check st "Common" "vs1" (Some "10.0.0.1") (Some 443%Z)
           (Some ["http"]) (Some "web") (Some "front end") (Some "None").

(** The documented task "Add VS": partition MyPartition, a destination
    given as a plain address, port 443, a pool, SNAT Automap, a description
    and two profiles. *)
Definition add_vs_example : AnsibleModule :=
  mkModule false present "MyPartition" "myvirtualserver"
           (Some "192.0.2.10") (Some 443%Z)
           (Some ["http"; "clientssl"]) (Some "mypool")
           (Some "Test Virtual Server") (Some "Automap").

(** The [changed] value an invocation reports, if it reports one. *)
Definition reported_changed (o : outcome unit) : option bool :=
  match o with
  | Exited (exit_json r) => Some (changed r)
  | _ => None
  end.

(** * Vocabulary of the properties *)

(** ** Profile sets *)

(** The sets of the specification: list difference, written from its
    words.  [spec_to_add] is "desired minus current"; [spec_to_remove] is
    "current minus desired minus the protected base profile". *)
Definition minus (l1 l2 : list string) : list string :=
  List.filter (fun x => negb (mem x l2)) l1.

(** The base TCP profile, under the name the appliance reports it. *)
Definition protected_profile : string := "/Common/tcp".

Definition spec_to_add (desired current : list string) : list string :=
  minus desired current.

Definition spec_to_remove (desired current : list string) : list string :=
  minus (minus current desired) [protected_profile].

(** [len(l) > 0] *)
Definition nonempty {A} (l : list A) : bool :=
  match l with
  | [] => false
  | _ :: _ => true
  end.

(** ** Failures and inputs *)

(** An operation failure of the "was not found" class. *)
Definition is_not_found (e : exn) : bool :=
  match e with
  | OperationFailed msg => contains "was not found" msg
  | OtherException _ => false
  end.

(** A parameter counts as supplied when it is set and true in Python's
    sense: not [None], not empty, not zero. *)
Definition supplied_str (o : option string) : bool :=
  match o with
  | Some v => truthy_str v
  | None => false
  end.

Definition supplied_int (o : option Z) : bool :=
  match o with
  | Some v => truthy_int v
  | None => false
  end.

(** ** Paths of a program *)

(** [all_paths P Q p]: whatever the appliance answers, every call [p]
    issues satisfies [P] and the way [p] ends satisfies [Q]. *)
Inductive all_paths {A} (P : Api.call -> Prop) (Q : outcome A -> Prop)
  : prog A -> Prop :=
| paths_Ret a : Q (Returned a) -> all_paths P Q (Ret a)
| paths_Raise e : Q (Raised e) -> all_paths P Q (Raise e)
| paths_Exit x : Q (Exited x) -> all_paths P Q (Exit x)
| paths_Call c k :
    P c -> (forall r, all_paths P Q (k r)) -> all_paths P Q (Call c k).

(** The same invocation with the check-mode flag set to [b]. *)
Definition with_check_mode (b : bool) (m : AnsibleModule) : AnsibleModule :=
  mkModule b (param_state m) (param_partition m) (param_name m)
           (param_destination m) (param_port m) (param_all_profiles m)
           (param_pool m) (param_description m) (param_snat m).

(** How a check-mode invocation may end. *)
Definition check_mode_end (o : outcome unit) : Prop :=
  o = Exited (exit_json (mkResult true None)) \/
  exists msg, o = Exited (fail_json msg).

(** [only_calls P p]: every call [p] can issue satisfies [P]. *)
Definition only_calls {A} (P : Api.call -> Prop) (p : prog A) : Prop :=
  all_paths P (fun _ => True) p.

(** What the invocation may write to the pool and the description: the
    value it was given, nothing else. *)
Definition writes_desired (m : AnsibleModule) (c : Api.call) : Prop :=
  match c with
  | Api.set_default_pool_name _ p =>
      fq_name_opt (param_partition m) (param_pool m) = Some p
  | Api.set_description _ d => param_description m = Some d
  | _ => True
  end.

(** ** Converged servers *)

(** When a stored server already has what the invocation asks for, one
    predicate per reconciler. *)
Definition destination_ok (destination : option string) (port : option Z)
           (v : VirtualServer) : Prop :=
  forall d p, destination = Some d -> port = Some p ->
              vs_destination v = mkDestination d p.

Definition pool_ok (pool : option string) (v : VirtualServer) : Prop :=
  forall p, pool = Some p -> vs_pool v = p.

Definition description_ok (description : option string) (v : VirtualServer) : Prop :=
  forall d, description = Some d -> vs_description v = d.

Definition snat_ok (snat : option string) (v : VirtualServer) : Prop :=
  (snat = Some "None" -> vs_snat v = "SRC_TRANS_NONE") /\
  (snat = Some "Automap" -> vs_snat v = "SRC_TRANS_AUTOMAP").

Definition profiles_ok (profiles : option (list string)) (v : VirtualServer) : Prop :=
  forall P, profiles = Some P ->
            to_add_profiles P (map profile_name (vs_profiles v)) = [] /\
            to_del_profiles P (map profile_name (vs_profiles v)) = [].

(** The profiles of a server after the remove call and the add call. *)
Definition new_profiles (P : list string) (cur : list VSProfile) : list VSProfile :=
  let C := map profile_name cur in
  (List.filter (fun p => negb (mem (profile_name p)
                                   (map profile_name (to_del_profiles P C)))) cur
   ++ to_add_profiles P C)%list.

(** A server that every reconciler of the update path finds in order. *)
Definition converged (partition : string) (destination : option string)
           (port : option Z) (all_profiles : option (list string))
           (pool description snat : option string) (v : VirtualServer) : Prop :=
  destination_ok (fq_name_opt partition destination) port v /\
  pool_ok pool v /\
  description_ok description v /\
  snat_ok snat v /\
  profiles_ok all_profiles v.

(** What a converged second run may still call: getters, and the
    transaction bracket around them. *)
Definition reads_only (c : Api.call) : Prop :=
  Api.is_mutating c = false \/ c = Api.start_transaction \/ c = Api.submit_transaction.

(** The create call sends the destination as it was given; the update
    path compares and writes it qualified by the partition.  The two agree
    when a server that still has to be created gets its destination in the
    qualified form already. *)
Definition created_as_compared (m : AnsibleModule) (s : gmap string VirtualServer) : Prop :=
  param_state m = present ->
  s !! fq_name (param_partition m) (param_name m) = None ->
  forall d, param_destination m = Some d ->
            fq_name (param_partition m) d = d.

(** ** Calls by kind and by target *)

(** The transaction bracket of the update path. *)
Definition is_transaction (c : Api.call) : bool :=
  match c with
  | Api.start_transaction | Api.submit_transaction => true
  | _ => false
  end.

(** A call that writes to a virtual server: a mutating call other than
    the transaction bracket. *)
Definition is_write (c : Api.call) : bool :=
  Api.is_mutating c && negb (is_transaction c).

(** The virtual server a call names; the transaction calls name none. *)
Definition target (c : Api.call) : option string :=
  match c with
  | Api.get_object_status vs => Some vs
  | Api.create name _ _ _ _ => Some name
  | Api.delete_virtual_server vs => Some vs
  | Api.get_profile vs => Some vs
  | Api.remove_profile vs _ => Some vs
  | Api.add_profile vs _ => Some vs
  | Api.get_source_address_translation_type vs => Some vs
  | Api.set_source_address_translation_none vs => Some vs
  | Api.set_source_address_translation_automap vs => Some vs
  | Api.get_default_pool_name vs => Some vs
  | Api.set_default_pool_name vs _ => Some vs
  | Api.get_destination_v2 vs => Some vs
  | Api.set_destination_v2 vs _ => Some vs
  | Api.get_description vs => Some vs
  | Api.set_description vs _ => Some vs
  | Api.start_transaction => None
  | Api.submit_transaction => None
  end.

(** [c] names no server other than [name]. *)
Definition targets_only (name : string) (c : Api.call) : Prop :=
  match target c with
  | Some vs => vs = name
  | None => True
  end.

(** A reconciler's result is faithful when it tells whether the
    reconciler wrote: false only after reads, true only after a write, and
    the reconciler never ends the process itself. *)
Definition faithful_result {R} (r : run_result R bool) : Prop :=
  (out r = Returned false -> Forall (fun c => Api.is_mutating c = false) (trace r)) /\
  (out r = Returned true -> Exists (fun c => is_write c = true) (trace r)) /\
  (forall x, out r <> Exited x) /\
  Forall (fun c => is_transaction c = false) (trace r).

(** The only way the [try] block of [main] ends the process itself. *)
Definition create_needs_both : exit :=
  fail_json "both destination and port must be supplied to create a VS".

(** How an invocation can end: a result, the create-path validation
    failure, or the report of an exception. *)
Definition main_end (o : outcome unit) : Prop :=
  (exists res, o = Exited (exit_json res)) \/
  o = Exited create_needs_both \/
  (exists e, o = Exited (fail_json ("received exception: " ++ str e))).

(** ** The update path and the create path *)

(** What is known of the calls [mid] of reconcilers that returned, [acc]
    being the disjunction of their results. *)
Definition so_far (acc : bool) (mid : list Api.call) : Prop :=
  Forall (fun c => is_transaction c = false) mid /\
  (acc = false -> Forall (fun c => Api.is_mutating c = false) mid) /\
  (acc = true -> Exists (fun c => is_write c = true) mid).

(** The reconcilers of the update path, run in order; [result] collects
    their results and goes to [k] after the last one. *)
Fixpoint reconcile_all {A} (ps : list (prog bool)) (result : Result)
         (k : Result -> prog A) : prog A :=
  match ps with
  | [] => k result
  | p :: ps => do c <- p ;; reconcile_all ps (or_changed result c) k
  end.

(** How a program ends: [V] holds of a returned value, [E] of an exit. *)
Definition ends_like {A} (V : A -> Prop) (E : exit -> Prop) (o : outcome A) : Prop :=
  match o with
  | Returned a => V a
  | Raised _ => True
  | Exited x => E x
  end.

(** Calls that only the update path makes. *)
Definition update_only (c : Api.call) : bool :=
  match c with
  | Api.start_transaction | Api.submit_transaction
  | Api.get_destination_v2 _ | Api.set_destination_v2 _ _
  | Api.get_default_pool_name _ | Api.set_default_pool_name _ _ => true
  | _ => false
  end.

(** An appliance on which no call fails. *)
Definition never_fails {R} (h : handler R) : Prop :=
  forall c s, exists v, fst (h c s) = inr v.

(** The read calls of a trace, in order. *)
Definition reads (t : list Api.call) : list Api.call :=
  List.filter (fun c => negb (Api.is_mutating c)) t.

(** An appliance on which every call succeeds, with fixed answers. *)
Definition default_reply (c : Api.call) : Api.reply c :=
  match c with
  | Api.get_profile _ => []
  | Api.get_source_address_translation_type _ => "SRC_TRANS_NONE"
  | Api.get_default_pool_name _ => ""
  | Api.get_destination_v2 _ => mkDestination "" 0
  | Api.get_description _ => ""
  | _ => tt
  end.

Definition agreeable : handler unit := fun c s => (inr (default_reply c), s).

(** ** Answers to the calls of a run *)

(** The calls of a run, each with the exception the appliance answered,
    if it answered one. *)
Fixpoint replies {R A} (h : handler R) (p : prog A) (s : R)
  : list (Api.call * option exn) :=
  match p with
  | Call c k =>
      let '(r, s') := h c s in
      (c, match r with inl e => Some e | inr _ => None end) :: replies h (k r) s'
  | _ => []
  end.

(** A run fails fast when a call that is answered with an exception is
    the last call of the run and its exception is raised to the caller. *)
Definition fails_fast {R A} (h : handler R) (p : prog A) (s : R) : Prop :=
  forall c e, In (c, Some e) (replies h p s) ->
              out (run h p s) = Raised e /\
              exists before, replies h p s = (before ++ [(c, Some e)])%list.

(** The calls of the three reconcilers that follow the create call. *)
Definition after_create_call (name : string) (c : Api.call) : Prop :=
  c = Api.get_profile name \/
  (exists ps, c = Api.remove_profile name ps) \/
  (exists ps, c = Api.add_profile name ps) \/
  c = Api.get_source_address_translation_type name \/
  c = Api.set_source_address_translation_none name \/
  c = Api.set_source_address_translation_automap name \/
  c = Api.get_description name \/
  (exists d, c = Api.set_description name d).

(** * Properties *)

(** ** Running composed programs *)

Lemma run_try_except_else {R A B} (h : handler R) (p : prog A)
      (hd : exn -> prog B) (k : A -> prog B) (s : R) :
  run h (try_except_else p hd k) s =
  let r := run h p s in
  match out r with
  | Returned a =>
      let r' := run h (k a) (final r) in
      mkRun (out r') (final r') (trace r ++ trace r')
  | Raised e =>
      let r' := run h (hd e) (final r) in
      mkRun (out r') (final r') (trace r ++ trace r')
  | Exited x => mkRun (Exited x) (final r) (trace r)
  end.
Proof.
  revert s. induction p as [a | e | x | c f IH]; intros s; simpl.
  - now destruct (run h (k a) s).
  - now destruct (run h (hd e) s).
  - reflexivity.
  - destruct (h c s) as [r s']. simpl. rewrite IH. simpl.
    now destruct (out (run h (f r) s')).
Qed.

Lemma run_bind {R A B} (h : handler R) (p : prog A) (k : A -> prog B) (s : R) :
  run h (bind p k) s =
  let r := run h p s in
  match out r with
  | Returned a =>
      let r' := run h (k a) (final r) in
      mkRun (out r') (final r') (trace r ++ trace r')
  | Raised e => mkRun (Raised e) (final r) (trace r)
  | Exited x => mkRun (Exited x) (final r) (trace r)
  end.
Proof.
  unfold bind. rewrite run_try_except_else. simpl.
  destruct (out (run h p s)); simpl; try reflexivity.
  now rewrite app_nil_r.
Qed.

Lemma run_invoke {R} (h : handler R) (c : Api.call) (s : R) :
  run h (invoke c) s =
  match fst (h c s) with
  | inl e => mkRun (Raised e) (snd (h c s)) [c]
  | inr v => mkRun (Returned v) (snd (h c s)) [c]
  end.
Proof. simpl. now destruct (h c s) as [[e | v] s']. Qed.

(** ** Port validation *)

Lemma port_guard_false (port : option Z) : port_guard port = false.
Proof.
  destruct port as [p |]; simpl; [| reflexivity].
  destruct (1 >? p)%Z eqn:H1; [| reflexivity].
  destruct (p >? 65535)%Z eqn:H2; [| reflexivity].
  apply Z.gtb_lt in H1, H2. lia.
Qed.

(** ** The destination and port reconciler *)

(** C8: [set_destination] reads the current destination and issues the
    setter exactly when both desired values are present and at least one of
    them differs from the current one; the setter then carries the desired
    pair.  When the pair is not to be written -- one of the values is unset,
    or both equal the current ones -- only the getter is called and the
    result is false. *)
Theorem set_destination_compares_pair {R} (h : handler R)
        (name : string) (destination : option string) (port : option Z)
        (s s1 : R) (cur : Destination) :
  h (Api.get_destination_v2 name) s = (inr cur, s1) ->
  let r := run h (set_destination name destination port) s in
  let differs :=
    exists a p, destination = Some a /\ port = Some p /\
                (a <> dest_address cur \/ p <> dest_port cur) in
  ((exists d, In (Api.set_destination_v2 name d) (trace r)) <-> differs) /\
  (forall a p, destination = Some a -> port = Some p ->
               (a <> dest_address cur \/ p <> dest_port cur) ->
               trace r = [Api.get_destination_v2 name;
                          Api.set_destination_v2 name (mkDestination a p)] /\
               (fst (h (Api.set_destination_v2 name (mkDestination a p)) s1) = inr tt ->
                out r = Returned true)) /\
  (~ differs -> r = mkRun (Returned false) s1 [Api.get_destination_v2 name]) /\
  (destination = None \/ port = None ->
   r = mkRun (Returned false) s1 [Api.get_destination_v2 name]).
Proof.
  intros Hget r differs.
  assert (Hno : ~ differs -> r = mkRun (Returned false) s1 [Api.get_destination_v2 name]).
  { intros Hn. subst r. unfold set_destination, get_destination.
    rewrite run_bind, (run_invoke h (Api.get_destination_v2 name)), Hget. simpl.
    destruct destination as [a |]; [| reflexivity].
    destruct port as [p |]; [| reflexivity].
    destruct (a =? dest_address cur) eqn:Ea; simpl.
    - destruct (p =? dest_port cur)%Z eqn:Ep; simpl; [reflexivity |].
      exfalso. apply Hn. exists a, p. repeat split. right.
      now apply Z.eqb_neq.
    - exfalso. apply Hn. exists a, p. repeat split. left.
      now apply String.eqb_neq. }
  assert (Hyes : forall a p, destination = Some a -> port = Some p ->
               (a <> dest_address cur \/ p <> dest_port cur) ->
               trace r = [Api.get_destination_v2 name;
                          Api.set_destination_v2 name (mkDestination a p)] /\
               (fst (h (Api.set_destination_v2 name (mkDestination a p)) s1) = inr tt ->
                out r = Returned true)).
  { intros a p -> -> Hd. subst r. unfold set_destination, get_destination.
    rewrite run_bind, (run_invoke h (Api.get_destination_v2 name)), Hget. simpl.
    assert (E : negb (a =? dest_address cur) || negb (p =? dest_port cur)%Z = true).
    { destruct Hd as [Hd | Hd].
      - apply String.eqb_neq in Hd. now rewrite Hd.
      - apply Z.eqb_neq in Hd. rewrite Hd. now rewrite orb_true_r. }
    rewrite E. simpl.
    destruct (h (Api.set_destination_v2 name (mkDestination a p)) s1) as [[e | []] s2];
      simpl; split; try reflexivity; intros; congruence. }
  split; [split | split; [exact Hyes | split; [exact Hno |]]].
  - intros [d Hin].
    destruct destination as [a |].
    2:{ rewrite Hno in Hin.
        - simpl in Hin. destruct Hin as [Hin | []]. discriminate.
        - intros (a & p & Ha & _). discriminate. }
    destruct port as [p |].
    2:{ rewrite Hno in Hin.
        - simpl in Hin. destruct Hin as [Hin | []]. discriminate.
        - intros (a' & p & _ & Hp & _). discriminate. }
    destruct (String.eqb_spec a (dest_address cur)) as [Ea | Ea].
    + destruct (Z.eqb_spec p (dest_port cur)) as [Ep | Ep].
      * rewrite Hno in Hin.
        -- simpl in Hin. destruct Hin as [Hin | []]. discriminate.
        -- intros (a' & p' & Ha & Hp & Hd). inversion Ha; inversion Hp; subst a' p'.
           destruct Hd; contradiction.
      * exists a, p. split; [reflexivity | split; [reflexivity | now right]].
    + exists a, p. split; [reflexivity | split; [reflexivity | now left]].
  - intros (a & p & Ha & Hp & Hd).
    destruct (Hyes a p Ha Hp Hd) as [Ht _]. rewrite Ht.
    exists (mkDestination a p). right. now left.
  - intros Hnone. apply Hno. intros (a & p & Ha & Hp & _).
    destruct Hnone; congruence.
Qed.

Lemma set_destination_compares_pair_witness :
  let r := run Appliance.handle
               (set_destination "/Common/vs1" (Some "/Common/10.0.0.2") (Some 443%Z))
               one_server in
  trace r = [Api.get_destination_v2 "/Common/vs1";
             Api.set_destination_v2 "/Common/vs1" (mkDestination "/Common/10.0.0.2" 443)] /\
  out r = Returned true.
Proof.
  destruct (set_destination_compares_pair Appliance.handle "/Common/vs1"
              (Some "/Common/10.0.0.2") (Some 443%Z) one_server one_server
              (vs_destination sample_vs)) as (_ & Hyes & _).
  - vm_compute. reflexivity.
  - destruct (Hyes "/Common/10.0.0.2" 443%Z) as [Ht Ho].
    + reflexivity.
    + reflexivity.
    + left. discriminate.
    + split; [exact Ht | apply Ho; vm_compute; reflexivity].
Defined.

(** ** The source-NAT reconciler *)

(** C10: for a SNAT mode other than the two recognised strings,
    [set_snat] reads the current mode, issues no setter, raises nothing and
    returns false. *)
Theorem set_snat_ignores_unknown_mode {R} (h : handler R)
        (name snat : string) (s s1 : R) (cur : string) :
  snat <> "None" -> snat <> "Automap" ->
  h (Api.get_source_address_translation_type name) s = (inr cur, s1) ->
  run h (set_snat name (Some snat)) s =
  mkRun (Returned false) s1 [Api.get_source_address_translation_type name].
Proof.
  intros Hn Ha Hget. unfold set_snat, get_snat_type.
  rewrite run_bind, (run_invoke h (Api.get_source_address_translation_type name)), Hget.
  apply String.eqb_neq in Hn, Ha. simpl. rewrite Hn, Ha. reflexivity.
Qed.

Lemma set_snat_ignores_unknown_mode_witness :
  run Appliance.handle (set_snat "/Common/vs1" (Some "automap")) one_server =
  mkRun (Returned false) one_server
        [Api.get_source_address_translation_type "/Common/vs1"].
Proof.
  apply (set_snat_ignores_unknown_mode Appliance.handle "/Common/vs1" "automap"
           one_server one_server "SRC_TRANS_NONE").
  - discriminate.
  - discriminate.
  - vm_compute. reflexivity.
Defined.

(** ** Profile reconciliation *)

Lemma length_pos_nonempty {A} (l : list A) : (0 <? length l)%nat = nonempty l.
Proof. now destruct l. Qed.

Lemma to_add_profiles_spec (desired current : list string) :
  to_add_profiles desired current = map all_context (spec_to_add desired current).
Proof. reflexivity. Qed.

Lemma to_del_profiles_spec (desired current : list string) :
  to_del_profiles desired current = map all_context (spec_to_remove desired current).
Proof.
  unfold to_del_profiles, spec_to_remove, minus. f_equal.
  induction current as [| x l IH]; simpl; [reflexivity |].
  destruct (mem x desired); simpl; [exact IH |].
  rewrite orb_false_r. unfold protected_profile at 1.
  destruct (x =? "/Common/tcp"); simpl; now rewrite IH.
Qed.

Lemma protected_not_removed (desired current : list string) :
  ~ In protected_profile (spec_to_remove desired current).
Proof.
  unfold spec_to_remove, minus. intros Hin.
  apply filter_In in Hin. destruct Hin as [_ Hin].
  vm_compute in Hin. discriminate.
Qed.

(** The two scenarios of the specification, with the names the appliance
    reports. *)
Example profile_sets_examples :
  spec_to_add ["/Common/tcp"; "/Common/clientssl"] ["/Common/tcp"; "/Common/http"]
  = ["/Common/clientssl"] /\
  spec_to_remove ["/Common/tcp"; "/Common/clientssl"] ["/Common/tcp"; "/Common/http"]
  = ["/Common/http"] /\
  spec_to_add [] ["/Common/tcp"; "/Common/http"] = [] /\
  spec_to_remove [] ["/Common/tcp"; "/Common/http"] = ["/Common/http"].
Proof. repeat split; reflexivity. Qed.

(** C4: with the desired list unset, [set_profiles] returns false without
    any remote call.  With a desired list [P] and current profiles [C] it
    reads the current profiles, issues one remove call for
    [C minus P minus the protected profile] when that is non-empty, then one
    add call for [P minus C] when that is non-empty, and returns true exactly
    when one of the two is non-empty.  The protected profile is never among
    the removed ones. *)
Theorem set_profiles_reconciles {R} (h : handler R) (name : string)
        (P : list string) (s s1 : R) (cur : list VSProfile) :
  let C := map profile_name cur in
  let to_remove := map all_context (spec_to_remove P C) in
  let to_add := map all_context (spec_to_add P C) in
  let s2 := if nonempty to_remove
            then snd (h (Api.remove_profile name to_remove) s1) else s1 in
  h (Api.get_profile name) s = (inr cur, s1) ->
  (nonempty to_remove = true ->
   fst (h (Api.remove_profile name to_remove) s1) = inr tt) ->
  (nonempty to_add = true ->
   fst (h (Api.add_profile name to_add) s2) = inr tt) ->
  let r := run h (set_profiles name (Some P)) s in
  run h (set_profiles name None) s = mkRun (Returned false) s [] /\
  trace r =
    (Api.get_profile name
       :: (if nonempty to_remove then [Api.remove_profile name to_remove] else [])
       ++ (if nonempty to_add then [Api.add_profile name to_add] else []))%list /\
  out r = Returned (nonempty to_remove || nonempty to_add) /\
  ~ In protected_profile (spec_to_remove P C).
Proof.
  intros C to_remove to_add s2 Hget Hrm Hadd r.
  split; [reflexivity |].
  assert (Hr : trace r =
    (Api.get_profile name
       :: (if nonempty to_remove then [Api.remove_profile name to_remove] else [])
       ++ (if nonempty to_add then [Api.add_profile name to_add] else []))%list /\
    out r = Returned (nonempty to_remove || nonempty to_add)).
  { subst r. unfold set_profiles, get_profiles.
    rewrite run_bind, (run_invoke h (Api.get_profile name)), Hget.
    cbn [fst snd out final trace].
    rewrite !length_pos_nonempty, to_del_profiles_spec, to_add_profiles_spec.
    fold C. fold to_remove. fold to_add.
    rewrite run_bind. subst s2.
    destruct (nonempty to_remove) eqn:Er.
    - rewrite run_bind, (run_invoke h (Api.remove_profile name to_remove)).
      rewrite (Hrm eq_refl). cbn [fst snd out final trace run].
      rewrite run_bind.
      destruct (nonempty to_add) eqn:Ea.
      + rewrite run_bind, (run_invoke h (Api.add_profile name to_add)).
        rewrite (Hadd eq_refl). now cbn.
      + now cbn.
    - cbn [fst snd out final trace run].
      rewrite run_bind.
      destruct (nonempty to_add) eqn:Ea.
      + rewrite run_bind, (run_invoke h (Api.add_profile name to_add)).
        rewrite (Hadd eq_refl). now cbn.
      + now cbn. }
  destruct Hr as [Ht Ho].
  split; [exact Ht | split; [exact Ho | apply protected_not_removed]].
Qed.

Lemma set_profiles_reconciles_witness :
  let r := run Appliance.handle
               (set_profiles "/Common/vs1" (Some ["/Common/clientssl"]))
               one_server in
  trace r = [Api.get_profile "/Common/vs1";
             Api.remove_profile "/Common/vs1" [all_context "/Common/http"];
             Api.add_profile "/Common/vs1" [all_context "/Common/clientssl"]] /\
  out r = Returned true.
Proof.
  destruct (set_profiles_reconciles Appliance.handle "/Common/vs1"
              ["/Common/clientssl"] one_server one_server
              (vs_profiles sample_vs)) as (_ & Ht & Ho & _).
  - vm_compute. reflexivity.
  - intros _. vm_compute. reflexivity.
  - intros _. vm_compute. reflexivity.
  - split; [exact Ht | exact Ho].
Defined.

(** ** Races against a concurrent actor *)

(** C6: desired state absent, outside check mode.  When the existence
    check succeeds and the delete call then fails, the invocation ends with
    [changed = false] if the failure is an operation failure that says
    "was not found", and with a failure report carrying the exception
    otherwise.  No further call is made. *)
Theorem delete_race_is_no_change {R} (h : handler R) (m : AnsibleModule)
        (s s1 s2 : R) (e : exn) :
  param_state m = absent ->
  check_mode m = false ->
  let name := fq_name (param_partition m) (param_name m) in
  h (Api.get_object_status name) s = (inr tt, s1) ->
  h (Api.delete_virtual_server name) s1 = (inl e, s2) ->
  run h (main m) s =
  mkRun (Exited (if is_not_found e
                 then exit_json (mkResult false None)
                 else fail_json ("received exception: " ++ str e)))
        s2
        [Api.get_object_status name; Api.delete_virtual_server name].
Proof.
  intros Hst Hcm name Hex Hdel. destruct m; simpl in *. subst.
  unfold main, main_try. cbn [param_state param_partition param_name param_port check_mode].
  rewrite port_guard_false. fold name.
  simpl. rewrite Hex. simpl. rewrite Hdel. simpl.
  destruct e as [msg | msg]; simpl; [| reflexivity].
  now destruct (contains "was not found" msg).
Qed.

Lemma delete_race_is_no_change_witness :
  run (Appliance.with_rival (Appliance.deletes_first "/Common/vs1"))
      (main (sample_module false absent)) one_server =
  mkRun (Exited (exit_json (mkResult false None))) ∅
        [Api.get_object_status "/Common/vs1";
         Api.delete_virtual_server "/Common/vs1"].
Proof.
  apply (delete_race_is_no_change
           (Appliance.with_rival (Appliance.deletes_first "/Common/vs1"))
           (sample_module false absent) one_server one_server ∅
           (Appliance.not_found "/Common/vs1")).
  - reflexivity.
  - reflexivity.
  - vm_compute. reflexivity.
  - vm_compute. reflexivity.
Defined.

(** [vs_create] never raises: whatever the create call answers, the
    function returns normally. *)
Lemma vs_create_returns {R} (h : handler R) (name destination : string)
      (port : Z) (pool : option string) (s : R) :
  out (run h (vs_create name destination port pool) s) = Returned tt.
Proof.
  unfold vs_create, try_except. rewrite run_try_except_else.
  rewrite (run_invoke h (Api.create name destination port pool _profiles)).
  now destruct (h (Api.create name destination port pool _profiles) s) as [[e | []] s'].
Qed.

(** C2: the create race as the code runs it.  The existence check finds
    no server, a rival creates it, and the module's create call fails with
    "already exists".  [vs_create] absorbs the failure, so the invocation
    reports [changed = true] after the three reconcilers of the create path;
    no transaction is opened and neither the destination nor the pool
    reconciler runs. *)
Theorem create_race_skips_update_path :
  let m := sample_module false present in
  let rival := Appliance.creates_first "/Common/vs1" sample_vs in
  let r := run (Appliance.with_rival rival) (main m) ∅ in
  fst (Appliance.with_rival rival
         (Api.create "/Common/vs1" "10.0.0.1" 443 (Some "/Common/web") _profiles) ∅)
  = inl (Appliance.already_exists "/Common/vs1") /\
  out r = Exited (exit_json (mkResult true None)) /\
  trace r =
    [Api.get_object_status "/Common/vs1";
     Api.create "/Common/vs1" "10.0.0.1" 443 (Some "/Common/web") _profiles;
     Api.get_profile "/Common/vs1";
     Api.get_source_address_translation_type "/Common/vs1";
     Api.get_description "/Common/vs1"] /\
  ~ In Api.start_transaction (trace r).
Proof.
  vm_compute. repeat split; try reflexivity.
  intros H. repeat (destruct H as [H | H]; [discriminate |]). exact H.
Qed.

(** C1: the port guard as the code runs it.  The chained comparison holds
    for no port, so 0 and 65536 pass it; with port 65536 the invocation goes
    on to write that port to the appliance. *)
Theorem out_of_range_port_is_not_rejected :
  port_guard (Some 0%Z) = false /\
  port_guard (Some 65536%Z) = false /\
  let m := mkModule false present "Common" "vs1" (Some "10.0.0.1") (Some 65536%Z)
                    None None None None in
  let r := run Appliance.handle (main m) one_server in
  out r = Exited (exit_json (mkResult true None)) /\
  trace r =
    [Api.get_object_status "/Common/vs1";
     Api.start_transaction;
     Api.get_destination_v2 "/Common/vs1";
     Api.set_destination_v2 "/Common/vs1" (mkDestination "/Common/10.0.0.1" 65536);
     Api.get_default_pool_name "/Common/vs1";
     Api.get_description "/Common/vs1";
     Api.get_source_address_translation_type "/Common/vs1";
     Api.submit_transaction].
Proof. vm_compute. repeat split; reflexivity. Qed.

(** ** Validation on the create path *)

(** C5, as the code behaves: the validation failure follows the existence
    check, which is a remote call. *)
Lemma create_validation_follows_existence_check :
  let m := mkModule false present "Common" "vs1" None (Some 443%Z)
                    None None None None in
  let r := run Appliance.handle (main m) ∅ in
  out r = Exited (fail_json "both destination and port must be supplied to create a VS") /\
  trace r = [Api.get_object_status "/Common/vs1"] /\
  trace r <> [].
Proof. vm_compute. repeat split; try reflexivity. discriminate. Qed.

(** C5, amended: desired state present, the existence check reports the
    server absent, and destination or port is missing (unset, empty or
    zero).  The invocation fails with the validation message; the existence
    check is the only remote call made, so no mutating call precedes the
    failure.  Check mode makes no difference. *)
Theorem create_validation_before_any_write {R} (h : handler R) (m : AnsibleModule)
        (s s1 : R) (msg : string) :
  param_state m = present ->
  let name := fq_name (param_partition m) (param_name m) in
  h (Api.get_object_status name) s = (inl (OperationFailed msg), s1) ->
  contains "was not found" msg = true ->
  supplied_str (param_destination m) = false \/ supplied_int (param_port m) = false ->
  run h (main m) s =
  mkRun (Exited (fail_json "both destination and port must be supplied to create a VS"))
        s1 [Api.get_object_status name].
Proof.
  intros Hst name Hex Hmsg Hmiss. destruct m; simpl in *. subst.
  unfold main, main_try.
  cbn [param_state param_partition param_name param_port check_mode param_destination].
  rewrite port_guard_false. fold name.
  simpl. rewrite Hex. simpl. rewrite Hmsg. simpl.
  destruct param_destination0 as [d |]; [| reflexivity].
  destruct param_port0 as [p |]; [| reflexivity].
  simpl in Hmiss.
  destruct (truthy_str d); simpl; [| reflexivity].
  destruct Hmiss as [Hm | Hm]; [discriminate |].
  rewrite Hm. reflexivity.
Qed.

Lemma create_validation_before_any_write_witness :
  run Appliance.handle
      (main (mkModule true present "Common" "vs1" (Some "10.0.0.1") (Some 0%Z)
                      None None None None)) ∅ =
  mkRun (Exited (fail_json "both destination and port must be supplied to create a VS"))
        ∅ [Api.get_object_status "/Common/vs1"].
Proof.
  apply (create_validation_before_any_write Appliance.handle
           (mkModule true present "Common" "vs1" (Some "10.0.0.1") (Some 0%Z)
                     None None None None)
           ∅ ∅ "The requested virtual server (/Common/vs1) was not found.").
  - reflexivity.
  - vm_compute. reflexivity.
  - vm_compute. reflexivity.
  - right. reflexivity.
Defined.

(** ** Properties of every path of a program *)

Lemma all_paths_run {R A} (P : Api.call -> Prop) (Q : outcome A -> Prop)
      (p : prog A) (h : handler R) (s : R) :
  all_paths P Q p ->
  Forall P (trace (run h p s)) /\ Q (out (run h p s)).
Proof.
  intros Hp. revert s.
  induction Hp as [a Ha | e He | x Hx | c k Hc _ IH]; intros s; simpl;
    try (split; [constructor | assumption]).
  destruct (h c s) as [r s']. simpl.
  destruct (IH r s') as [Ht Ho]. split; [now constructor | exact Ho].
Qed.

Lemma all_paths_try_except_else {A B} (P : Api.call -> Prop)
      (Q1 : outcome A -> Prop) (Q : outcome B -> Prop)
      (p : prog A) (hd : exn -> prog B) (k : A -> prog B) :
  all_paths P Q1 p ->
  (forall a, Q1 (Returned a) -> all_paths P Q (k a)) ->
  (forall e, Q1 (Raised e) -> all_paths P Q (hd e)) ->
  (forall x, Q1 (Exited x) -> Q (Exited x)) ->
  all_paths P Q (try_except_else p hd k).
Proof.
  intros Hp Hk Hh Hx.
  induction Hp as [a Ha | e He | x Hx' | c f Hc _ IH]; simpl.
  - now apply Hk.
  - now apply Hh.
  - constructor. now apply Hx.
  - constructor; [exact Hc | exact IH].
Qed.

Lemma all_paths_bind {A B} (P : Api.call -> Prop)
      (Q1 : outcome A -> Prop) (Q : outcome B -> Prop)
      (p : prog A) (k : A -> prog B) :
  all_paths P Q1 p ->
  (forall a, Q1 (Returned a) -> all_paths P Q (k a)) ->
  (forall e, Q1 (Raised e) -> Q (Raised e)) ->
  (forall x, Q1 (Exited x) -> Q (Exited x)) ->
  all_paths P Q (bind p k).
Proof.
  intros Hp Hk Hr Hx. unfold bind.
  apply all_paths_try_except_else with (Q1 := Q1); auto.
  intros e He. constructor. now apply Hr.
Qed.

Lemma all_paths_invoke (P : Api.call -> Prop) (c : Api.call)
      (Q : outcome (Api.reply c) -> Prop) :
  P c -> (forall v, Q (Returned v)) -> (forall e, Q (Raised e)) ->
  all_paths P Q (invoke c).
Proof.
  intros Hc Hv He. unfold invoke. constructor; [exact Hc |].
  intros [e | v]; constructor; auto.
Qed.

(** ** Check mode *)

(** C3, as the code behaves: for desired state enabled the check-mode run
    reports [changed = true] and the live run [changed = false], against any
    appliance in any state. *)
Lemma check_mode_changed_differs_from_live :
  ~ (forall (m : AnsibleModule) (s : gmap string VirtualServer),
        reported_changed (out (run Appliance.handle (main (with_check_mode true m)) s)) =
        reported_changed (out (run Appliance.handle (main (with_check_mode false m)) s))).
Proof.
  intros H. specialize (H (sample_module false enabled) ∅).
  vm_compute in H. discriminate.
Qed.

Lemma check_mode_paths (m : AnsibleModule) :
  check_mode m = true ->
  all_paths (fun c => Api.is_mutating c = false) check_mode_end (main m).
Proof.
  intros Hcm.
  destruct m as [cm st part nm dest port profs pool descr snat]. simpl in Hcm. subst cm.
  unfold main, main_try.
  cbn [param_state param_partition param_name param_port check_mode param_destination
       param_all_profiles param_pool param_description param_snat].
  rewrite port_guard_false.
  destruct st; simpl.
  - constructor; [reflexivity |].
    intros [[msg | msg] | []]; simpl.
    + destruct (contains "was not found" msg); simpl.
      * destruct dest as [d |]; [| constructor; right; eauto].
        destruct port as [p |]; [| constructor; right; eauto].
        destruct (negb (truthy_str d) || negb (truthy_int p)); simpl;
          constructor; [right; eauto | now left].
      * constructor. right. eauto.
    + constructor. right. eauto.
    + constructor. now left.
  - constructor. now left.
  - constructor. now left.
  - constructor. now left.
Qed.

(** C3, amended: in check mode an invocation issues no mutating remote
    call, whatever the desired state and whatever the appliance answers:
    for desired state present the existence check is the only call it makes,
    for the other states it makes no call at all.  When it does not fail it
    reports [changed = true], whether or not a live run would change
    anything. *)
Theorem check_mode_never_mutates {R} (h : handler R) (m : AnsibleModule) (s : R) :
  check_mode m = true ->
  trace (run h (main m) s) =
    match param_state m with
    | present => [Api.get_object_status (fq_name (param_partition m) (param_name m))]
    | _ => []
    end /\
  Forall (fun c => Api.is_mutating c = false) (trace (run h (main m) s)) /\
  check_mode_end (out (run h (main m) s)).
Proof.
  intros Hcm. split; [| apply all_paths_run, check_mode_paths, Hcm].
  destruct m as [cm st part nm dest port profs pool descr snat]. simpl in Hcm. subst cm.
  unfold main, main_try.
  cbn [param_state param_partition param_name param_port check_mode param_destination
       param_all_profiles param_pool param_description param_snat].
  rewrite port_guard_false.
  destruct st; simpl; try reflexivity.
  destruct (h (Api.get_object_status (fq_name part nm)) s) as [[[msg | msg] | []] s'];
    simpl; try reflexivity.
  destruct (contains "was not found" msg); simpl; [| reflexivity].
  destruct dest as [d |]; [| reflexivity].
  destruct port as [p |]; [| reflexivity].
  now destruct (negb (truthy_str d) || negb (truthy_int p)).
Qed.

Lemma check_mode_never_mutates_witness :
  let r := run Appliance.handle (main (sample_module true present)) one_server in
  trace r = [Api.get_object_status "/Common/vs1"] /\
  Forall (fun c => Api.is_mutating c = false) (trace r) /\ check_mode_end (out r).
Proof.
  apply (check_mode_never_mutates Appliance.handle (sample_module true present) one_server).
  reflexivity.
Defined.

(** ** Which calls an invocation can issue *)

Lemma only_calls_try_except_else {A B} (P : Api.call -> Prop)
      (p : prog A) (hd : exn -> prog B) (k : A -> prog B) :
  only_calls P p ->
  (forall a, only_calls P (k a)) ->
  (forall e, only_calls P (hd e)) ->
  only_calls P (try_except_else p hd k).
Proof.
  intros Hp Hk Hh.
  apply all_paths_try_except_else with (Q1 := fun _ => True).
  - exact Hp.
  - intros a _. apply Hk.
  - intros e _. apply Hh.
  - intros x _. exact I.
Qed.

Lemma only_calls_bind {A B} (P : Api.call -> Prop) (p : prog A) (k : A -> prog B) :
  only_calls P p -> (forall a, only_calls P (k a)) -> only_calls P (bind p k).
Proof.
  intros Hp Hk. apply only_calls_try_except_else; auto.
  intros e. now constructor.
Qed.

Lemma only_calls_invoke (P : Api.call -> Prop) (c : Api.call) :
  P c -> only_calls P (invoke c).
Proof. intros Hc. now apply all_paths_invoke. Qed.

Lemma only_calls_leaf {A} (P : Api.call -> Prop) :
  (forall a : A, only_calls P (Ret a)) /\
  (forall e, only_calls P (Raise e : prog A)) /\
  (forall x, only_calls P (Exit x : prog A)).
Proof. repeat split; intros; now constructor. Qed.

Lemma only_calls_on_operation_failed {A} (P : Api.call -> Prop)
      (pat : string) (k : prog A) (e : exn) :
  only_calls P k -> only_calls P (on_operation_failed pat k e).
Proof.
  intros Hk. destruct e as [msg | msg]; simpl; [| now constructor].
  destruct (contains pat msg); [exact Hk | now constructor].
Qed.

(** Breaks a goal [only_calls P p] down along the structure of [p]. *)
Ltac only_calls_tac :=
  repeat first
    [ apply only_calls_bind; [| intros ?]
    | apply only_calls_try_except_else; [| intros ? | intros ?]
    | match goal with
      | |- only_calls ?P (invoke ?c) => apply (only_calls_invoke P c)
      end
    | apply only_calls_on_operation_failed
    | apply paths_Ret; exact I
    | apply paths_Raise; exact I
    | apply paths_Exit; exact I
    | match goal with
      | |- only_calls _ (if ?b then _ else _) => destruct b
      | |- only_calls _ (match ?o with Some _ => _ | None => _ end) => destruct o eqn:?
      | |- only_calls _ (let '(_, _) := ?p in _) => destruct p
      end ].

Lemma main_only_writes_desired (m : AnsibleModule) :
  only_calls (writes_desired m) (main m).
Proof.
  destruct m as [cm st part nm dest port profs pool descr snat].
  unfold main, main_try.
  cbn [param_state param_partition param_name param_port check_mode param_destination
       param_all_profiles param_pool param_description param_snat].
  rewrite port_guard_false.
  unfold main_absent, main_present_create, main_present_update, main_enabled_disabled,
    vs_exists, vs_create, vs_remove, set_profiles, get_profiles, set_snat, get_snat_type,
    set_pool, get_pool, set_destination, get_destination, set_description,
    get_description, try_except.
  destruct st; only_calls_tac; try exact I; simpl; congruence.
Qed.

(** C9, as the code behaves: an empty description is a supplied value.
    The invocation writes it and the description the server had is gone. *)
Lemma empty_description_clears_existing :
  let m := mkModule false present "Common" "vs1" None None None None (Some "") None in
  let r := run Appliance.handle (main m) one_server in
  vs_description <$> (one_server !! "/Common/vs1") = Some "front end" /\
  out r = Exited (exit_json (mkResult true None)) /\
  In (Api.set_description "/Common/vs1" "") (trace r) /\
  vs_description <$> (final r !! "/Common/vs1") = Some "".
Proof.
  vm_compute. repeat split; try reflexivity.
  do 5 right. now left.
Qed.

(** C9, amended: whatever the appliance answers, every pool setter and
    every description setter an invocation issues carries the value the
    invocation was given for that parameter -- so with the parameter unset no
    such setter is issued and the attribute is left as it is -- and the two
    reconcilers called with an unset value only read.  A supplied value,
    the empty string included, is written like any other. *)
Theorem pool_and_description_written_only_as_given {R} (h : handler R)
        (m : AnsibleModule) (s : R) :
  Forall (writes_desired m) (trace (run h (main m) s)) /\
  (forall name, trace (run h (set_pool name None) s) = [Api.get_default_pool_name name]) /\
  (forall name, trace (run h (set_description name None) s) = [Api.get_description name]).
Proof.
  split; [| split].
  - apply (all_paths_run (writes_desired m) (fun _ => True)).
    apply main_only_writes_desired.
  - intros name. unfold set_pool, get_pool. simpl.
    now destruct (h (Api.get_default_pool_name name) s) as [[e | v] s'].
  - intros name. unfold set_description, get_description. simpl.
    now destruct (h (Api.get_description name) s) as [[e | v] s'].
Qed.

(** ** Two runs in a row against the test double *)

Lemma contains_prefix (p s : string) : String.prefix p s = true -> contains p s = true.
Proof. intros H. destruct s; simpl in *; now rewrite H. Qed.

Lemma contains_app_r (p x y : string) : contains p y = true -> contains p (x ++ y) = true.
Proof.
  intros H. induction x as [| c x IH]; simpl; [exact H |].
  rewrite IH. apply orb_true_r.
Qed.

Lemma not_found_is_not_found (vs : string) :
  is_not_found (Appliance.not_found vs) = true.
Proof.
  unfold Appliance.not_found, is_not_found.
  apply contains_app_r, contains_app_r. reflexivity.
Qed.

Lemma mem_In (x : string) (l : list string) : mem x l = true <-> In x l.
Proof.
  unfold mem. rewrite existsb_exists. split.
  - intros (y & Hy & E). apply String.eqb_eq in E. now subst.
  - intros H. exists x. split; [exact H | apply String.eqb_refl].
Qed.

Lemma filter_nil_iff {A} (f : A -> bool) (l : list A) :
  List.filter f l = [] <-> forall x, In x l -> f x = false.
Proof.
  induction l as [| a l IH]; simpl.
  - split; [intros _ x [] | reflexivity].
  - destruct (f a) eqn:E; split.
    + discriminate.
    + intros H. specialize (H a (or_introl eq_refl)). congruence.
    + intros H x [-> | Hx]; [exact E | now apply IH].
    + intros H. apply IH. intros x Hx. apply H. now right.
Qed.

(** What the test double answers about a server it has, and about one
    it does not have. *)
Lemma read_some {T} (s : gmap string VirtualServer) (vs : string)
      (v : VirtualServer) (f : VirtualServer -> T) :
  s !! vs = Some v -> Appliance.read vs f s = (inr (f v), s).
Proof. intros H. unfold Appliance.read. now rewrite H. Qed.

Lemma write_some (s : gmap string VirtualServer) (vs : string)
      (v : VirtualServer) (f : VirtualServer -> VirtualServer) :
  s !! vs = Some v -> Appliance.write vs f s = (inr tt, <[vs := f v]> s).
Proof. intros H. unfold Appliance.write. now rewrite H. Qed.

(** One answered call of a program run against the test double. *)
Ltac answered c E :=
  rewrite (run_invoke Appliance.handle c);
  cbn [Appliance.handle];
  rewrite E;
  cbn [fst snd out final trace].

Lemma run_vs_exists (s : gmap string VirtualServer) (vs : string) :
  run Appliance.handle (vs_exists vs) s =
  mkRun (Returned (match s !! vs with Some _ => true | None => false end))
        s [Api.get_object_status vs].
Proof.
  unfold vs_exists. rewrite run_try_except_else.
  rewrite (run_invoke Appliance.handle (Api.get_object_status vs)).
  cbn [Appliance.handle]. unfold Appliance.read.
  destruct (s !! vs) as [v |]; cbn [fst snd out final trace run]; [reflexivity |].
  pose proof (not_found_is_not_found vs) as E.
  unfold Appliance.not_found, is_not_found in *.
  cbn [on_operation_failed]. rewrite E. reflexivity.
Qed.

Lemma insert_same (s : gmap string VirtualServer) (vs : string) (v : VirtualServer) :
  s !! vs = Some v -> <[vs := v]> s = s.
Proof. apply insert_id. Qed.

(** *** Destination and port *)

Lemma set_destination_noop (s : gmap string VirtualServer) (name : string)
      (v : VirtualServer) (destination : option string) (port : option Z) :
  s !! name = Some v -> destination_ok destination port v ->
  run Appliance.handle (set_destination name destination port) s =
  mkRun (Returned false) s [Api.get_destination_v2 name].
Proof.
  intros Hv Hok. unfold set_destination, get_destination. rewrite run_bind.
  answered (Api.get_destination_v2 name) (read_some s name v vs_destination Hv).
  destruct destination as [d |]; [| reflexivity].
  destruct port as [p |]; [| reflexivity].
  rewrite (Hok d p eq_refl eq_refl). cbn [dest_address dest_port].
  now rewrite String.eqb_refl, Z.eqb_refl.
Qed.

Lemma set_destination_post (s : gmap string VirtualServer) (name : string)
      (v : VirtualServer) (destination : option string) (port : option Z) :
  s !! name = Some v ->
  exists b x tr,
    run Appliance.handle (set_destination name destination port) s =
    mkRun (Returned b) (<[name := Appliance.with_destination x v]> s) tr /\
    destination_ok destination port (Appliance.with_destination x v).
Proof.
  intros Hv.
  assert (Hsame : <[name := Appliance.with_destination (vs_destination v) v]> s = s).
  { apply insert_same. rewrite Hv. now destruct v. }
  unfold set_destination, get_destination. rewrite run_bind.
  answered (Api.get_destination_v2 name) (read_some s name v vs_destination Hv).
  destruct destination as [d |].
  2:{ exists false, (vs_destination v), [Api.get_destination_v2 name].
      rewrite Hsame. split; [reflexivity | intros d p Hd; discriminate]. }
  destruct port as [p |].
  2:{ exists false, (vs_destination v), [Api.get_destination_v2 name].
      rewrite Hsame. split; [reflexivity | intros d' p _ Hp; discriminate]. }
  destruct (negb (d =? dest_address (vs_destination v))
            || negb (p =? dest_port (vs_destination v))%Z) eqn:E.
  - exists true, (mkDestination d p). eexists. split.
    + rewrite run_bind.
      answered (Api.set_destination_v2 name (mkDestination d p))
               (write_some s name v (Appliance.with_destination (mkDestination d p)) Hv).
      reflexivity.
    + intros d' p' Hd Hp. inversion Hd. inversion Hp. reflexivity.
  - exists false, (vs_destination v), [Api.get_destination_v2 name].
    rewrite Hsame. split; [reflexivity |].
    intros d' p' Hd Hp. inversion Hd. inversion Hp. subst d' p'.
    apply orb_false_iff in E. destruct E as [Ea Ep].
    apply negb_false_iff in Ea, Ep.
    apply String.eqb_eq in Ea. apply Z.eqb_eq in Ep.
    cbn [vs_destination Appliance.with_destination].
    destruct (vs_destination v) as [a q]. cbn in Ea, Ep. now subst.
Qed.

(** *** Pool *)

Lemma set_pool_noop (s : gmap string VirtualServer) (name : string)
      (v : VirtualServer) (pool : option string) :
  s !! name = Some v -> pool_ok pool v ->
  run Appliance.handle (set_pool name pool) s =
  mkRun (Returned false) s [Api.get_default_pool_name name].
Proof.
  intros Hv Hok. unfold set_pool, get_pool. rewrite run_bind.
  answered (Api.get_default_pool_name name) (read_some s name v vs_pool Hv).
  destruct pool as [p |]; [| reflexivity].
  rewrite (Hok p eq_refl). now rewrite String.eqb_refl.
Qed.

Lemma set_pool_post (s : gmap string VirtualServer) (name : string)
      (v : VirtualServer) (pool : option string) :
  s !! name = Some v ->
  exists b x tr,
    run Appliance.handle (set_pool name pool) s =
    mkRun (Returned b) (<[name := Appliance.with_pool x v]> s) tr /\
    pool_ok pool (Appliance.with_pool x v).
Proof.
  intros Hv.
  assert (Hsame : <[name := Appliance.with_pool (vs_pool v) v]> s = s).
  { apply insert_same. rewrite Hv. now destruct v. }
  unfold set_pool, get_pool. rewrite run_bind.
  answered (Api.get_default_pool_name name) (read_some s name v vs_pool Hv).
  destruct pool as [p |].
  2:{ exists false, (vs_pool v), [Api.get_default_pool_name name].
      rewrite Hsame. split; [reflexivity | intros p Hp; discriminate]. }
  destruct (p =? vs_pool v) eqn:E; cbn [negb].
  - exists false, (vs_pool v), [Api.get_default_pool_name name].
    rewrite Hsame. split; [reflexivity |].
    intros p' Hp. inversion Hp. subst p'. apply String.eqb_eq in E. now rewrite E.
  - exists true, p. eexists. split.
    + rewrite run_bind.
      answered (Api.set_default_pool_name name p)
               (write_some s name v (Appliance.with_pool p) Hv).
      reflexivity.
    + intros p' Hp. now inversion Hp.
Qed.

(** *** Description *)

Lemma set_description_noop (s : gmap string VirtualServer) (name : string)
      (v : VirtualServer) (description : option string) :
  s !! name = Some v -> description_ok description v ->
  run Appliance.handle (set_description name description) s =
  mkRun (Returned false) s [Api.get_description name].
Proof.
  intros Hv Hok. unfold set_description, get_description. rewrite run_bind.
  answered (Api.get_description name) (read_some s name v vs_description Hv).
  destruct description as [d |]; [| reflexivity].
  rewrite (Hok d eq_refl). now rewrite String.eqb_refl.
Qed.

Lemma set_description_post (s : gmap string VirtualServer) (name : string)
      (v : VirtualServer) (description : option string) :
  s !! name = Some v ->
  exists b x tr,
    run Appliance.handle (set_description name description) s =
    mkRun (Returned b) (<[name := Appliance.with_description x v]> s) tr /\
    description_ok description (Appliance.with_description x v).
Proof.
  intros Hv.
  assert (Hsame : <[name := Appliance.with_description (vs_description v) v]> s = s).
  { apply insert_same. rewrite Hv. now destruct v. }
  unfold set_description, get_description. rewrite run_bind.
  answered (Api.get_description name) (read_some s name v vs_description Hv).
  destruct description as [d |].
  2:{ exists false, (vs_description v), [Api.get_description name].
      rewrite Hsame. split; [reflexivity | intros d Hd; discriminate]. }
  destruct (vs_description v =? d) eqn:E; cbn [negb].
  - exists false, (vs_description v), [Api.get_description name].
    rewrite Hsame. split; [reflexivity |].
    intros d' Hd. inversion Hd. subst d'. now apply String.eqb_eq in E.
  - exists true, d. eexists. split.
    + rewrite run_bind.
      answered (Api.set_description name d)
               (write_some s name v (Appliance.with_description d) Hv).
      reflexivity.
    + intros d' Hd. now inversion Hd.
Qed.

(** *** Source NAT *)

Lemma set_snat_noop (s : gmap string VirtualServer) (name : string)
      (v : VirtualServer) (snat : option string) :
  s !! name = Some v -> snat_ok snat v ->
  run Appliance.handle (set_snat name snat) s =
  mkRun (Returned false) s [Api.get_source_address_translation_type name].
Proof.
  intros Hv [Hn Ha]. unfold set_snat, get_snat_type. rewrite run_bind.
  answered (Api.get_source_address_translation_type name)
           (read_some s name v vs_snat Hv).
  destruct snat as [x |]; [| reflexivity].
  destruct (String.eqb_spec x "None") as [-> | Nn].
  - rewrite (Hn eq_refl). reflexivity.
  - destruct (String.eqb_spec x "Automap") as [-> | Na].
    + rewrite (Ha eq_refl). reflexivity.
    + reflexivity.
Qed.

Lemma set_snat_post (s : gmap string VirtualServer) (name : string)
      (v : VirtualServer) (snat : option string) :
  s !! name = Some v ->
  exists b x tr,
    run Appliance.handle (set_snat name snat) s =
    mkRun (Returned b) (<[name := Appliance.with_snat x v]> s) tr /\
    snat_ok snat (Appliance.with_snat x v).
Proof.
  intros Hv.
  assert (Hsame : <[name := Appliance.with_snat (vs_snat v) v]> s = s).
  { apply insert_same. rewrite Hv. now destruct v. }
  destruct snat as [x |].
  2:{ exists false, (vs_snat v). eexists. rewrite Hsame. split.
      - apply (set_snat_noop s name v None Hv). split; discriminate.
      - split; discriminate. }
  destruct (String.eqb_spec x "None") as [-> | Nn].
  - destruct (String.eqb_spec (vs_snat v) "SRC_TRANS_NONE") as [E | E].
    + exists false, (vs_snat v). eexists. rewrite Hsame. split.
      * apply (set_snat_noop s name v _ Hv). split; [now intros _ | discriminate].
      * split; [now intros _ | discriminate].
    + exists true, "SRC_TRANS_NONE". eexists. split.
      * unfold set_snat, get_snat_type. rewrite run_bind.
        answered (Api.get_source_address_translation_type name)
                 (read_some s name v vs_snat Hv).
        apply String.eqb_neq in E. rewrite E.
        rewrite run_bind. cbn [andb negb String.eqb Ascii.eqb Bool.eqb].
        rewrite run_bind.
        answered (Api.set_source_address_translation_none name)
                 (write_some s name v (Appliance.with_snat "SRC_TRANS_NONE") Hv).
        cbn [run out final trace]. rewrite run_bind. reflexivity.
      * split; [reflexivity | discriminate].
  - destruct (String.eqb_spec x "Automap") as [-> | Na].
    + destruct (String.eqb_spec (vs_snat v) "SRC_TRANS_AUTOMAP") as [E | E].
      * exists false, (vs_snat v). eexists. rewrite Hsame. split.
        -- apply (set_snat_noop s name v _ Hv). split; [discriminate | now intros _].
        -- split; [discriminate | now intros _].
      * exists true, "SRC_TRANS_AUTOMAP". eexists. split.
        -- unfold set_snat, get_snat_type. rewrite run_bind.
           answered (Api.get_source_address_translation_type name)
                    (read_some s name v vs_snat Hv).
           apply String.eqb_neq in E. rewrite E.
           rewrite run_bind. cbn [andb negb String.eqb Ascii.eqb Bool.eqb run out final trace].
           rewrite run_bind, run_bind.
           answered (Api.set_source_address_translation_automap name)
                    (write_some s name v (Appliance.with_snat "SRC_TRANS_AUTOMAP") Hv).
           reflexivity.
        -- split; [discriminate | reflexivity].
    + exists false, (vs_snat v). eexists. rewrite Hsame.
      assert (Hok : snat_ok (Some x) v).
      { split; intros H; inversion H; contradiction. }
      split; [apply (set_snat_noop s name v _ Hv Hok) | exact Hok].
Qed.

(** *** Profiles *)

Lemma set_profiles_noop (s : gmap string VirtualServer) (name : string)
      (v : VirtualServer) (profiles : option (list string)) :
  s !! name = Some v -> profiles_ok profiles v ->
  run Appliance.handle (set_profiles name profiles) s =
  mkRun (Returned false) s
        (match profiles with Some _ => [Api.get_profile name] | None => [] end).
Proof.
  intros Hv Hok. destruct profiles as [P |]; [| reflexivity].
  destruct (Hok P eq_refl) as [Ha Hd].
  unfold set_profiles, get_profiles. rewrite run_bind.
  answered (Api.get_profile name) (read_some s name v vs_profiles Hv).
  rewrite Ha, Hd. reflexivity.
Qed.

Lemma names_all_context (l : list string) : map profile_name (map all_context l) = l.
Proof. induction l as [| x l IH]; simpl; [reflexivity | now rewrite IH]. Qed.

Lemma filter_all {A} (f : A -> bool) (l : list A) :
  (forall x, In x l -> f x = true) -> List.filter f l = l.
Proof.
  induction l as [| a l IH]; simpl; intros H; [reflexivity |].
  rewrite (H a (or_introl eq_refl)). f_equal. apply IH. intros x Hx. apply H. now right.
Qed.

Lemma new_profiles_converged (P : list string) (cur : list VSProfile) :
  let C' := map profile_name (new_profiles P cur) in
  to_add_profiles P C' = [] /\ to_del_profiles P C' = [].
Proof.
  set (C := map profile_name cur).
  assert (Hnames : forall x,
             In x (map profile_name (new_profiles P cur)) <->
             (In x C /\ ~ (~ In x P /\ x <> "/Common/tcp")) \/ (In x P /\ ~ In x C)).
  { intros x. unfold new_profiles. fold C.
    rewrite map_app, in_app_iff.
    unfold to_add_profiles at 1. rewrite names_all_context.
    unfold to_del_profiles. rewrite names_all_context.
    rewrite in_map_iff. split.
    - intros [(p & Hp & Hin) | Hin].
      + apply filter_In in Hin. destruct Hin as [Hin Hf]. left. split.
        * subst x. unfold C. now apply in_map.
        * intros [HnP Hnt]. apply negb_true_iff in Hf.
          assert (Hm : mem (profile_name p)
                           (List.filter (fun y => negb (mem y P) && negb (y =? "/Common/tcp")) C)
                       = true).
          { apply mem_In, filter_In. split.
            - unfold C. now apply in_map.
            - subst x. apply andb_true_iff. split; apply negb_true_iff.
              + destruct (mem (profile_name p) P) eqn:E; [| reflexivity].
                apply mem_In in E. contradiction.
              + now apply String.eqb_neq. }
          congruence.
      + apply filter_In in Hin. destruct Hin as [Hin Hf]. right. split; [exact Hin |].
        intros Hc. apply mem_In in Hc. rewrite Hc in Hf. discriminate.
    - intros [[Hc Hkeep] | [Hp Hc]].
      + left. unfold C in Hc. apply in_map_iff in Hc. destruct Hc as (p & Hp & Hin).
        exists p. split; [exact Hp |]. apply filter_In. split; [exact Hin |].
        apply negb_true_iff.
        destruct (mem (profile_name p)
                      (List.filter (fun y => negb (mem y P) && negb (y =? "/Common/tcp")) C))
                 eqn:E; [| reflexivity].
        exfalso. apply mem_In, filter_In in E. destruct E as [_ E].
        apply andb_true_iff in E. destruct E as [E1 E2].
        apply negb_true_iff in E1, E2. apply Hkeep. subst x. split.
        * intros Hx. apply mem_In in Hx. congruence.
        * now apply String.eqb_neq.
      + right. apply filter_In. split; [exact Hp |].
        apply negb_true_iff. destruct (mem x C) eqn:E; [| reflexivity].
        apply mem_In in E. contradiction. }
  cbn zeta. unfold to_add_profiles, to_del_profiles. split.
  - replace (List.filter _ P) with (@nil string); [reflexivity |].
    symmetry. apply filter_nil_iff. intros x Hx. apply negb_false_iff, mem_In, Hnames.
    destruct (mem x C) eqn:E.
    + left. split; [now apply mem_In |]. intros [HnP _]. contradiction.
    + right. split; [exact Hx |]. intros Hc. apply mem_In in Hc. congruence.
  - replace (List.filter _ (map profile_name (new_profiles P cur))) with (@nil string);
      [reflexivity |].
    symmetry. apply filter_nil_iff. intros x Hx. apply Hnames in Hx.
    apply andb_false_iff.
    destruct (mem x P) eqn:E; [now left |].
    right. apply negb_false_iff, String.eqb_eq.
    destruct Hx as [[_ Hkeep] | [Hp _]].
    + destruct (String.eqb_spec x "/Common/tcp") as [Ht | Ht]; [exact Ht |].
      exfalso. apply Hkeep. split; [| exact Ht].
      intros Hp. apply mem_In in Hp. congruence.
    + apply mem_In in Hp. congruence.
Qed.

Lemma set_profiles_post (s : gmap string VirtualServer) (name : string)
      (v : VirtualServer) (profiles : option (list string)) :
  s !! name = Some v ->
  exists b x tr,
    run Appliance.handle (set_profiles name profiles) s =
    mkRun (Returned b) (<[name := Appliance.with_profiles x v]> s) tr /\
    profiles_ok profiles (Appliance.with_profiles x v).
Proof.
  intros Hv.
  assert (Hsame : <[name := Appliance.with_profiles (vs_profiles v) v]> s = s).
  { apply insert_same. rewrite Hv. now destruct v. }
  destruct profiles as [P |].
  2:{ exists false, (vs_profiles v), []. rewrite Hsame.
      split; [reflexivity | intros P HP; discriminate]. }
  exists (nonempty (to_del_profiles P (map profile_name (vs_profiles v)))
          || nonempty (to_add_profiles P (map profile_name (vs_profiles v)))),
         (new_profiles P (vs_profiles v)).
  exists (Api.get_profile name
            :: (if nonempty (to_del_profiles P (map profile_name (vs_profiles v)))
                then [Api.remove_profile
                        name (to_del_profiles P (map profile_name (vs_profiles v)))]
                else [])
            ++ (if nonempty (to_add_profiles P (map profile_name (vs_profiles v)))
                then [Api.add_profile
                        name (to_add_profiles P (map profile_name (vs_profiles v)))]
                else []))%list.
  split.
  2:{ intros P' HP. inversion HP. subst P'.
      cbn [vs_profiles Appliance.with_profiles]. apply new_profiles_converged. }
  unfold set_profiles, get_profiles. rewrite run_bind.
  answered (Api.get_profile name) (read_some s name v vs_profiles Hv).
  unfold new_profiles.
  set (C := map profile_name (vs_profiles v)).
  set (D := to_del_profiles P C). set (A := to_add_profiles P C).
  rewrite !length_pos_nonempty. rewrite run_bind.
  destruct D as [| d D'] eqn:ED; cbn [nonempty orb].
  - cbn [run out final trace map mem existsb negb].
    rewrite (filter_all (fun _ => true) (vs_profiles v)) by reflexivity.
    rewrite run_bind.
    destruct A as [| a A'] eqn:EA; cbn [nonempty].
    + cbn [run out final trace]. rewrite (app_nil_r (vs_profiles v)), Hsame. reflexivity.
    + rewrite run_bind.
      answered (Api.add_profile name (a :: A'))
               (write_some s name v (Appliance.attach (a :: A')) Hv).
      reflexivity.
  - rewrite run_bind.
    answered (Api.remove_profile name (d :: D'))
             (write_some s name v (Appliance.detach (d :: D')) Hv).
    cbn [run out final trace]. rewrite run_bind.
    destruct A as [| a A'] eqn:EA; cbn [nonempty].
    + cbn [run out final trace]. rewrite (app_nil_r (List.filter _ (vs_profiles v))).
      reflexivity.
    + rewrite run_bind.
      answered (Api.add_profile name (a :: A'))
               (write_some (<[name := Appliance.detach (d :: D') v]> s) name
                           (Appliance.detach (d :: D') v)
                           (Appliance.attach (a :: A'))
                           (lookup_insert_eq s name _)).
      rewrite insert_insert_eq. reflexivity.
Qed.

(** *** The branches of [main] *)

Lemma run_main {R} (h : handler R) (m : AnsibleModule) (s : R) :
  run h (main m) s =
  let r := run h (main_try m) s in
  mkRun (Exited match out r with
                | Returned res => exit_json res
                | Raised e => fail_json ("received exception: " ++ str e)
                | Exited x => x
                end)
        (final r) (trace r).
Proof.
  unfold main. rewrite port_guard_false, run_bind.
  cbn [run out final trace app]. rewrite run_bind.
  unfold try_except. rewrite run_try_except_else. cbn zeta.
  destruct (run h (main_try m) s) as [[res | e | x] s' tr];
    cbn [run out final trace]; now rewrite ?app_nil_r.
Qed.

Lemma update_noop (s : gmap string VirtualServer) (partition name : string)
      (destination : option string) (port : option Z)
      (all_profiles : option (list string)) (pool description snat : option string)
      (v : VirtualServer) :
  s !! name = Some v ->
  converged partition destination port all_profiles pool description snat v ->
  let r := run Appliance.handle
               (main_present_update false partition name destination port
                                    all_profiles pool description snat default_result) s in
  out r = Returned default_result /\ final r = s /\
  Forall (fun c => Api.is_mutating c = false \/
                   c = Api.start_transaction \/ c = Api.submit_transaction) (trace r).
Proof.
  intros Hv (Hd & Hp & He & Hs & Hf).
  unfold main_present_update. cbn [negb]. cbn zeta.
  rewrite run_bind, (run_invoke Appliance.handle Api.start_transaction).
  cbn [Appliance.handle fst snd out final trace].
  rewrite run_bind, (set_destination_noop s name v _ _ Hv Hd). cbn [out final trace].
  rewrite run_bind, (set_pool_noop s name v _ Hv Hp). cbn [out final trace].
  rewrite run_bind, (set_description_noop s name v _ Hv He). cbn [out final trace].
  rewrite run_bind, (set_snat_noop s name v _ Hv Hs). cbn [out final trace].
  rewrite run_bind, (set_profiles_noop s name v _ Hv Hf). cbn [out final trace].
  rewrite run_bind, (run_invoke Appliance.handle Api.submit_transaction).
  cbn [Appliance.handle fst snd out final trace run].
  split; [reflexivity | split; [reflexivity |]].
  destruct all_profiles; cbn [app];
    repeat (apply List.Forall_cons;
            [first [left; reflexivity | right; left; reflexivity
                   | right; right; reflexivity] |]);
    apply List.Forall_nil.
Qed.

Lemma update_post (s : gmap string VirtualServer) (partition name : string)
      (destination : option string) (port : option Z)
      (all_profiles : option (list string)) (pool description snat : option string)
      (result : Result) (v : VirtualServer) :
  s !! name = Some v ->
  let r := run Appliance.handle
               (main_present_update false partition name destination port
                                    all_profiles pool description snat result) s in
  exists res v',
    out r = Returned res /\ final r !! name = Some v' /\
    converged partition destination port all_profiles pool description snat v'.
Proof.
  intros Hv.
  destruct (set_destination_post s name v (fq_name_opt partition destination) port Hv)
    as (b1 & x1 & t1 & E1 & O1).
  set (v1 := Appliance.with_destination x1 v) in *.
  set (s1 := <[name := v1]> s) in *.
  assert (Hv1 : s1 !! name = Some v1) by apply lookup_insert_eq.
  destruct (set_pool_post s1 name v1 pool Hv1) as (b2 & x2 & t2 & E2 & O2).
  set (v2 := Appliance.with_pool x2 v1) in *.
  set (s2 := <[name := v2]> s1) in *.
  assert (Hv2 : s2 !! name = Some v2) by apply lookup_insert_eq.
  destruct (set_description_post s2 name v2 description Hv2) as (b3 & x3 & t3 & E3 & O3).
  set (v3 := Appliance.with_description x3 v2) in *.
  set (s3 := <[name := v3]> s2) in *.
  assert (Hv3 : s3 !! name = Some v3) by apply lookup_insert_eq.
  destruct (set_snat_post s3 name v3 snat Hv3) as (b4 & x4 & t4 & E4 & O4).
  set (v4 := Appliance.with_snat x4 v3) in *.
  set (s4 := <[name := v4]> s3) in *.
  assert (Hv4 : s4 !! name = Some v4) by apply lookup_insert_eq.
  destruct (set_profiles_post s4 name v4 all_profiles Hv4) as (b5 & x5 & t5 & E5 & O5).
  set (v5 := Appliance.with_profiles x5 v4) in *.
  cbn zeta. unfold main_present_update. cbn [negb].
  rewrite run_bind, (run_invoke Appliance.handle Api.start_transaction).
  cbn [Appliance.handle fst snd out final trace].
  rewrite run_bind, E1. cbn [out final trace].
  rewrite run_bind, E2. cbn [out final trace].
  rewrite run_bind, E3. cbn [out final trace].
  rewrite run_bind, E4. cbn [out final trace].
  rewrite run_bind, E5. cbn [out final trace].
  rewrite run_bind, (run_invoke Appliance.handle Api.submit_transaction).
  cbn [Appliance.handle fst snd out final trace run].
  eexists. exists v5. split; [reflexivity |]. split; [apply lookup_insert_eq |].
  unfold converged, destination_ok, pool_ok, description_ok, snat_ok, profiles_ok in *.
  subst v5 v4 v3 v2 v1. cbn in *. auto.
Qed.

Lemma run_present_create_exists (s : gmap string VirtualServer) (cm : bool)
      (name : string) (destination : option string) (port : option Z)
      (all_profiles : option (list string)) (pool description snat : option string)
      (v : VirtualServer) :
  s !! name = Some v ->
  run Appliance.handle
      (main_present_create cm name destination port all_profiles pool description snat) s =
  mkRun (Returned (default_result, true)) s [Api.get_object_status name].
Proof.
  intros Hv. unfold main_present_create.
  rewrite run_bind, run_vs_exists, Hv. reflexivity.
Qed.

Lemma create_post (s : gmap string VirtualServer) (name d : string) (p : Z)
      (all_profiles : option (list string)) (pool description snat : option string) :
  s !! name = None -> truthy_str d = true -> truthy_int p = true ->
  let r := run Appliance.handle
               (main_present_create false name (Some d) (Some p)
                                    all_profiles pool description snat) s in
  exists v',
    out r = Returned (mkResult true None, false) /\
    final r !! name = Some v' /\
    vs_destination v' = mkDestination d p /\
    pool_ok pool v' /\ description_ok description v' /\
    snat_ok snat v' /\ profiles_ok all_profiles v'.
Proof.
  intros Hnone Hd Hp.
  set (v0 := Appliance.created d p pool _profiles).
  set (s0 := <[name := v0]> s).
  assert (Hv0 : s0 !! name = Some v0) by apply lookup_insert_eq.
  destruct (set_profiles_post s0 name v0 all_profiles Hv0) as (b1 & x1 & t1 & E1 & O1).
  set (v1 := Appliance.with_profiles x1 v0) in *.
  set (s1 := <[name := v1]> s0) in *.
  assert (Hv1 : s1 !! name = Some v1) by apply lookup_insert_eq.
  destruct (set_snat_post s1 name v1 snat Hv1) as (b2 & x2 & t2 & E2 & O2).
  set (v2 := Appliance.with_snat x2 v1) in *.
  set (s2 := <[name := v2]> s1) in *.
  assert (Hv2 : s2 !! name = Some v2) by apply lookup_insert_eq.
  destruct (set_description_post s2 name v2 description Hv2) as (b3 & x3 & t3 & E3 & O3).
  set (v3 := Appliance.with_description x3 v2) in *.
  cbn zeta. unfold main_present_create.
  rewrite run_bind, run_vs_exists, Hnone. cbn [out final trace negb].
  rewrite Hd, Hp. cbn [negb orb].
  rewrite run_try_except_else, run_bind.
  unfold vs_create, try_except. rewrite run_try_except_else.
  rewrite (run_invoke Appliance.handle (Api.create name d p pool _profiles)).
  cbn [Appliance.handle]. rewrite Hnone. fold v0. fold s0.
  cbn [fst snd out final trace run].
  rewrite run_bind, E1. cbn [out final trace].
  rewrite run_bind, E2. cbn [out final trace].
  rewrite run_bind, E3. cbn [out final trace run].
  exists v3. split; [reflexivity |]. split; [apply lookup_insert_eq |].
  unfold pool_ok, description_ok, snat_ok, profiles_ok in *.
  subst v3 v2 v1 v0. cbn in *.
  split; [reflexivity |]. split; [| auto].
  intros q Hq. subst pool. reflexivity.
Qed.

Lemma run_absent_live (s : gmap string VirtualServer) (name : string) :
  run Appliance.handle (main_absent false name) s =
  match s !! name with
  | Some _ =>
      mkRun (Returned (mkResult true (Some name))) (delete name s)
            [Api.get_object_status name; Api.delete_virtual_server name]
  | None => mkRun (Returned default_result) s [Api.get_object_status name]
  end.
Proof.
  unfold main_absent. cbn [negb]. rewrite run_bind, run_vs_exists.
  destruct (s !! name) as [v |] eqn:Hv; cbn [out final trace]; [| reflexivity].
  unfold vs_remove. rewrite run_try_except_else.
  rewrite (run_invoke Appliance.handle (Api.delete_virtual_server name)).
  cbn [Appliance.handle]. rewrite Hv. reflexivity.
Qed.

(** *** Running [main] twice *)

Lemma second_run_present (m : AnsibleModule) (s : gmap string VirtualServer)
      (v : VirtualServer) :
  check_mode m = false -> param_state m = present ->
  s !! fq_name (param_partition m) (param_name m) = Some v ->
  converged (param_partition m) (param_destination m) (param_port m)
            (fq_list_names (param_partition m) (param_all_profiles m))
            (fq_name_opt (param_partition m) (param_pool m))
            (param_description m) (param_snat m) v ->
  let r := run Appliance.handle (main m) s in
  out r = Exited (exit_json (mkResult false None)) /\ final r = s /\
  Forall reads_only (trace r).
Proof.
  intros Hcm Hst Hv Hc. cbn zeta. rewrite run_main. cbn zeta.
  unfold main_try. rewrite Hst, Hcm.
  rewrite run_bind, (run_present_create_exists s false _ _ _ _ _ _ _ v Hv).
  cbn [out final trace].
  destruct (update_noop s _ _ _ _ _ _ _ _ v Hv Hc) as (Ho & Hf & Ht).
  cbn [out final trace]. rewrite Ho, Hf.
  split; [reflexivity | split; [reflexivity |]].
  apply List.Forall_cons; [now left | exact Ht].
Qed.

(** Where two runs in a row do agree: outside check mode, against the
    test double and with nothing else changing it, a first run that reports
    a result is followed by a second run of the same invocation that reports
    [changed = false], leaves the configuration as it is and only reads --
    for every desired state, provided a server the first run has to create
    gets its destination in the qualified form. *)
Theorem second_live_run_reports_no_change (m : AnsibleModule)
        (s : gmap string VirtualServer) (res : Result) :
  check_mode m = false ->
  created_as_compared m s ->
  let r1 := run Appliance.handle (main m) s in
  out r1 = Exited (exit_json res) ->
  let r2 := run Appliance.handle (main m) (final r1) in
  out r2 = Exited (exit_json (mkResult false None)) /\
  final r2 = final r1 /\
  Forall reads_only (trace r2).
Proof.
  intros Hcm Hprov r1 Hout.
  destruct (param_state m) eqn:Hst.
  - (* present *)
    assert (Hconv : exists v',
               final r1 !! fq_name (param_partition m) (param_name m) = Some v' /\
               converged (param_partition m) (param_destination m) (param_port m)
                         (fq_list_names (param_partition m) (param_all_profiles m))
                         (fq_name_opt (param_partition m) (param_pool m))
                         (param_description m) (param_snat m) v').
    { subst r1. rewrite run_main in Hout |- *. cbn zeta in Hout |- *.
      cbn [out final] in Hout |- *.
      unfold main_try in Hout |- *. rewrite Hst, Hcm in Hout |- *.
      rewrite run_bind in Hout |- *.
      destruct (s !! fq_name (param_partition m) (param_name m)) as [v |] eqn:Hv.
      - rewrite (run_present_create_exists s false _ _ _ _ _ _ _ v Hv) in Hout |- *.
        cbn [out final trace] in Hout |- *.
        destruct (update_post s (param_partition m) _ (param_destination m) (param_port m)
                    (fq_list_names (param_partition m) (param_all_profiles m))
                    (fq_name_opt (param_partition m) (param_pool m))
                    (param_description m) (param_snat m) default_result v Hv)
          as (r & v' & Ho & Hf & Hc).
        exists v'. split; [exact Hf | exact Hc].
      - destruct (param_destination m) as [d |] eqn:Hd.
        2:{ exfalso. unfold main_present_create in Hout.
            rewrite run_bind, run_vs_exists, Hv in Hout. discriminate Hout. }
        destruct (param_port m) as [p |] eqn:Hp.
        2:{ exfalso. unfold main_present_create in Hout.
            rewrite run_bind, run_vs_exists, Hv in Hout. discriminate Hout. }
        destruct (truthy_str d) eqn:Td.
        2:{ exfalso. unfold main_present_create in Hout.
            rewrite run_bind, run_vs_exists, Hv in Hout.
            cbn [out final trace negb] in Hout. rewrite Td in Hout.
            discriminate Hout. }
        destruct (truthy_int p) eqn:Tp.
        2:{ exfalso. unfold main_present_create in Hout.
            rewrite run_bind, run_vs_exists, Hv in Hout.
            cbn [out final trace negb] in Hout. rewrite Td, Tp in Hout.
            discriminate Hout. }
        destruct (create_post s (fq_name (param_partition m) (param_name m)) d p
                    (fq_list_names (param_partition m) (param_all_profiles m))
                    (fq_name_opt (param_partition m) (param_pool m))
                    (param_description m) (param_snat m) Hv Td Tp)
          as (v' & Ho & Hf & Hdst & Hpo & Hde & Hsn & Hpr).
        cbn zeta. rewrite Ho. cbn [out final trace run].
        exists v'. split; [exact Hf |].
        split; [| auto].
        intros d' p' Hd' Hp'. cbn in Hd'. inversion Hd'. inversion Hp'. subst d' p'.
        rewrite Hdst. f_equal. symmetry. now apply Hprov. }
    destruct Hconv as (v' & Hv' & Hc).
    apply (second_run_present m (final r1) v' Hcm Hst Hv' Hc).
  - (* absent *)
    subst r1. cbn zeta. rewrite !run_main. cbn zeta. cbn [out final trace].
    unfold main_try. rewrite Hst, Hcm.
    assert (Hgone : final (run Appliance.handle
                               (main_absent false
                                  (fq_name (param_partition m) (param_name m))) s)
                    !! fq_name (param_partition m) (param_name m) = None).
    { rewrite run_absent_live.
      destruct (s !! fq_name (param_partition m) (param_name m)) eqn:Hv;
        cbn [final]; [apply lookup_delete_eq | exact Hv]. }
    rewrite (run_absent_live (final _)), Hgone. cbn [out final trace].
    split; [reflexivity | split; [reflexivity |]].
    apply List.Forall_cons; [now left | apply List.Forall_nil].
  - (* enabled *)
    subst r1. cbn zeta. rewrite !run_main. unfold main_try. rewrite Hst, Hcm.
    cbn. split; [reflexivity | split; [reflexivity | apply List.Forall_nil]].
  - (* disabled *)
    subst r1. cbn zeta. rewrite !run_main. unfold main_try. rewrite Hst, Hcm.
    cbn. split; [reflexivity | split; [reflexivity | apply List.Forall_nil]].
Qed.

Lemma second_live_run_reports_no_change_witness :
  let m := mkModule false present "Common" "vs1" (Some "/Common/10.0.0.1") (Some 443%Z)
                    (Some ["http"]) (Some "web") (Some "front end") (Some "Automap") in
  let r1 := run Appliance.handle (main m) ∅ in
  let r2 := run Appliance.handle (main m) (final r1) in
  out r2 = Exited (exit_json (mkResult false None)) /\
  final r2 = final r1 /\
  Forall reads_only (trace r2).
Proof.
  apply (second_live_run_reports_no_change
           (mkModule false present "Common" "vs1" (Some "/Common/10.0.0.1") (Some 443%Z)
                     (Some ["http"]) (Some "web") (Some "front end") (Some "Automap"))
           ∅ (mkResult true None)).
  - reflexivity.
  - intros _ _ d Hd. inversion Hd. reflexivity.
  - vm_compute. reflexivity.
Defined.

(** C7: two runs in a row as the code runs them.  The documented task
    "Add VS" is applied to an appliance that does not have the server and
    that nothing else changes.  The first run creates the server with the
    destination as given; the second run compares the destination in its
    partition-qualified form, finds it different, writes it and reports
    [changed = true].  Only the third run reports [changed = false]. *)
Theorem second_run_after_create_writes_again :
  let name := "/MyPartition/myvirtualserver" in
  let r1 := run Appliance.handle (main add_vs_example) ∅ in
  let r2 := run Appliance.handle (main add_vs_example) (final r1) in
  let r3 := run Appliance.handle (main add_vs_example) (final r2) in
  In (Api.create name "192.0.2.10" 443 (Some "/MyPartition/mypool")
                 [mkProfile "PROFILE_CONTEXT_TYPE_ALL" "tcp"]) (trace r1) /\
  reported_changed (out r1) = Some true /\
  trace r2 =
    [Api.get_object_status name;
     Api.start_transaction;
     Api.get_destination_v2 name;
     Api.set_destination_v2 name (mkDestination "/MyPartition/192.0.2.10" 443);
     Api.get_default_pool_name name;
     Api.get_description name;
     Api.get_source_address_translation_type name;
     Api.get_profile name;
     Api.submit_transaction] /\
  reported_changed (out r2) = Some true /\
  reported_changed (out r3) = Some false.
Proof.
  vm_compute. repeat split; try reflexivity.
  right. now left.
Qed.


(** * Further properties of the module's functions *)

(** ** The existence check and the create call *)

(** X1: [vs_exists] makes one status lookup and nothing else.  It answers
    true when the lookup succeeds, false when the lookup fails with an
    operation failure whose message contains "was not found", and raises
    the lookup's exception unchanged in every other case. *)
Theorem vs_exists_classifies {R} (h : handler R) (vs : string) (s : R) :
  run h (vs_exists vs) s =
  mkRun (match fst (h (Api.get_object_status vs) s) with
         | inr _ => Returned true
         | inl e => if is_not_found e then Returned false else Raised e
         end)
        (snd (h (Api.get_object_status vs) s))
        [Api.get_object_status vs].
Proof.
  unfold vs_exists. rewrite run_try_except_else.
  rewrite (run_invoke h (Api.get_object_status vs)).
  destruct (h (Api.get_object_status vs) s) as [[[msg | msg] | []] s'];
    cbn [fst snd out final trace run on_operation_failed is_not_found app];
    try reflexivity.
  now destruct (contains "was not found" msg).
Qed.

(** X2: [vs_create] makes one create call, with the implicit [tcp]
    profile, and returns normally whatever the call answers: no failure of
    the create call, of whatever class, leaves the function. *)
Theorem vs_create_absorbs_every_failure {R} (h : handler R)
        (name destination : string) (port : Z) (pool : option string) (s : R) :
  let c := Api.create name destination port pool
                      [mkProfile "PROFILE_CONTEXT_TYPE_ALL" "tcp"] in
  run h (vs_create name destination port pool) s =
  mkRun (Returned tt) (snd (h c s)) [c].
Proof.
  cbn zeta. unfold vs_create, try_except. rewrite run_try_except_else.
  rewrite (run_invoke h (Api.create name destination port pool _profiles)).
  unfold _profiles.
  now destruct (h (Api.create name destination port pool
                              [mkProfile "PROFILE_CONTEXT_TYPE_ALL" "tcp"]) s)
    as [[e | []] s'].
Qed.

(** ** Pool and description *)

(** X3: [set_pool] reads the current default pool and issues the setter
    exactly when a pool is given and differs from the current one; the
    setter carries the given pool, and the result is true when it succeeds.
    Otherwise only the getter is called and the result is false. *)
Theorem set_pool_writes_on_difference {R} (h : handler R) (name : string)
        (pool : option string) (s s1 : R) (cur : string) :
  h (Api.get_default_pool_name name) s = (inr cur, s1) ->
  let r := run h (set_pool name pool) s in
  let differs := exists p, pool = Some p /\ p <> cur in
  ((exists p, In (Api.set_default_pool_name name p) (trace r)) <-> differs) /\
  (forall p, pool = Some p -> p <> cur ->
             trace r = [Api.get_default_pool_name name;
                        Api.set_default_pool_name name p] /\
             (fst (h (Api.set_default_pool_name name p) s1) = inr tt ->
              out r = Returned true)) /\
  (~ differs -> r = mkRun (Returned false) s1 [Api.get_default_pool_name name]).
Proof.
  intros Hget r differs.
  assert (Hrun : r = match pool with
                     | Some p =>
                         if p =? cur
                         then mkRun (Returned false) s1 [Api.get_default_pool_name name]
                         else
                           let a := h (Api.set_default_pool_name name p) s1 in
                           mkRun (match fst a with
                                  | inl e => Raised e
                                  | inr _ => Returned true
                                  end) (snd a)
                                 [Api.get_default_pool_name name;
                                  Api.set_default_pool_name name p]
                     | None => mkRun (Returned false) s1 [Api.get_default_pool_name name]
                     end).
  { subst r. unfold set_pool, get_pool.
    rewrite run_bind, (run_invoke h (Api.get_default_pool_name name)), Hget.
    cbn [fst snd out final trace].
    destruct pool as [p |]; [| reflexivity].
    destruct (p =? cur); cbn [negb]; [reflexivity |].
    rewrite run_bind, (run_invoke h (Api.set_default_pool_name name p)).
    now destruct (h (Api.set_default_pool_name name p) s1) as [[e | []] s2]. }
  clearbody r. subst r. subst differs.
  destruct pool as [p |].
  - destruct (String.eqb_spec p cur) as [E | E].
    + split; [split |]; [| | split].
      * intros [q [Hq | []]]. discriminate.
      * intros (q & Hq & Hne). inversion Hq. congruence.
      * intros q Hq Hne. inversion Hq. congruence.
      * reflexivity.
    + split; [split |]; [| | split].
      * intros _. exists p. split; [reflexivity | exact E].
      * intros _. exists p. right. now left.
      * intros q Hq _. inversion Hq. subst q. cbn zeta. cbn [trace out].
        split; [reflexivity |]. intros Hok. now rewrite Hok.
      * intros Hn. exfalso. apply Hn. exists p. split; [reflexivity | exact E].
  - split; [split |]; [| | split].
    + intros [q [Hq | []]]. discriminate.
    + intros (q & Hq & _). discriminate.
    + intros q Hq. discriminate.
    + reflexivity.
Qed.

Lemma set_pool_writes_on_difference_witness :
  let r := run Appliance.handle (set_pool "/Common/vs1" (Some "/Common/other"))
               one_server in
  trace r = [Api.get_default_pool_name "/Common/vs1";
             Api.set_default_pool_name "/Common/vs1" "/Common/other"] /\
  out r = Returned true.
Proof.
  destruct (set_pool_writes_on_difference Appliance.handle "/Common/vs1"
              (Some "/Common/other") one_server one_server "/Common/web")
    as (_ & Hyes & _).
  - vm_compute. reflexivity.
  - destruct (Hyes "/Common/other" eq_refl) as [Ht Ho].
    + discriminate.
    + split; [exact Ht | apply Ho; vm_compute; reflexivity].
Defined.

(** X4: [set_description] reads the current description and issues the
    setter exactly when a description is given and differs from the current
    one -- the empty string is a description like any other; the setter
    carries the given text.  Otherwise only the getter is called and the
    result is false. *)
Theorem set_description_writes_on_difference {R} (h : handler R) (name : string)
        (description : option string) (s s1 : R) (cur : string) :
  h (Api.get_description name) s = (inr cur, s1) ->
  let r := run h (set_description name description) s in
  let differs := exists d, description = Some d /\ d <> cur in
  ((exists d, In (Api.set_description name d) (trace r)) <-> differs) /\
  (forall d, description = Some d -> d <> cur ->
             trace r = [Api.get_description name; Api.set_description name d] /\
             (fst (h (Api.set_description name d) s1) = inr tt ->
              out r = Returned true)) /\
  (~ differs -> r = mkRun (Returned false) s1 [Api.get_description name]).
Proof.
  intros Hget r differs.
  assert (Hrun : r = match description with
                     | Some d =>
                         if cur =? d
                         then mkRun (Returned false) s1 [Api.get_description name]
                         else
                           let a := h (Api.set_description name d) s1 in
                           mkRun (match fst a with
                                  | inl e => Raised e
                                  | inr _ => Returned true
                                  end) (snd a)
                                 [Api.get_description name; Api.set_description name d]
                     | None => mkRun (Returned false) s1 [Api.get_description name]
                     end).
  { subst r. unfold set_description, get_description.
    rewrite run_bind, (run_invoke h (Api.get_description name)), Hget.
    cbn [fst snd out final trace].
    destruct description as [d |]; [| reflexivity].
    destruct (cur =? d); cbn [negb]; [reflexivity |].
    rewrite run_bind, (run_invoke h (Api.set_description name d)).
    now destruct (h (Api.set_description name d) s1) as [[e | []] s2]. }
  clearbody r. subst r. subst differs.
  destruct description as [d |].
  - destruct (String.eqb_spec cur d) as [E | E].
    + split; [split |]; [| | split].
      * intros [q [Hq | []]]. discriminate.
      * intros (q & Hq & Hne). inversion Hq. congruence.
      * intros q Hq Hne. inversion Hq. congruence.
      * reflexivity.
    + split; [split |]; [| | split].
      * intros _. exists d. split; [reflexivity | congruence].
      * intros _. exists d. right. now left.
      * intros q Hq _. inversion Hq. subst q. cbn zeta. cbn [trace out].
        split; [reflexivity |]. intros Hok. now rewrite Hok.
      * intros Hn. exfalso. apply Hn. exists d. split; [reflexivity | congruence].
  - split; [split |]; [| | split].
    + intros [q [Hq | []]]. discriminate.
    + intros (q & Hq & _). discriminate.
    + intros q Hq. discriminate.
    + reflexivity.
Qed.

Lemma set_description_writes_on_difference_witness :
  let r := run Appliance.handle (set_description "/Common/vs1" (Some "")) one_server in
  trace r = [Api.get_description "/Common/vs1"; Api.set_description "/Common/vs1" ""] /\
  out r = Returned true.
Proof.
  destruct (set_description_writes_on_difference Appliance.handle "/Common/vs1"
              (Some "") one_server one_server "front end")
    as (_ & Hyes & _).
  - vm_compute. reflexivity.
  - destruct (Hyes "" eq_refl) as [Ht Ho].
    + discriminate.
    + split; [exact Ht | apply Ho; vm_compute; reflexivity].
Defined.

(** ** Source NAT *)

(** X5: [set_snat] reads the current mode first, also when no mode is
    asked for.  Asked for [None] it issues the "none" setter exactly when the
    current mode is not [SRC_TRANS_NONE]; asked for [Automap] it issues the
    "automap" setter exactly when the current mode is not
    [SRC_TRANS_AUTOMAP].  In every other case the getter is the only call
    and the result is false. *)
Theorem set_snat_switches_mode {R} (h : handler R) (name : string)
        (snat : option string) (s s1 : R) (cur : string) :
  h (Api.get_source_address_translation_type name) s = (inr cur, s1) ->
  let r := run h (set_snat name snat) s in
  let get := Api.get_source_address_translation_type name in
  let unchanged := mkRun (Returned false) s1 [get] in
  (snat = None -> r = unchanged) /\
  (snat = Some "None" ->
   (cur = "SRC_TRANS_NONE" -> r = unchanged) /\
   (cur <> "SRC_TRANS_NONE" ->
    trace r = [get; Api.set_source_address_translation_none name] /\
    (fst (h (Api.set_source_address_translation_none name) s1) = inr tt ->
     out r = Returned true))) /\
  (snat = Some "Automap" ->
   (cur = "SRC_TRANS_AUTOMAP" -> r = unchanged) /\
   (cur <> "SRC_TRANS_AUTOMAP" ->
    trace r = [get; Api.set_source_address_translation_automap name] /\
    (fst (h (Api.set_source_address_translation_automap name) s1) = inr tt ->
     out r = Returned true))).
Proof.
  intros Hget r get unchanged. subst r get unchanged.
  unfold set_snat, get_snat_type.
  rewrite run_bind, (run_invoke h (Api.get_source_address_translation_type name)), Hget.
  cbn [fst snd out final trace].
  split; [| split].
  - intros ->. reflexivity.
  - intros ->. split.
    + intros ->. reflexivity.
    + intros Hne. apply String.eqb_neq in Hne.
      rewrite run_bind. cbn [String.eqb Ascii.eqb Bool.eqb andb]. rewrite Hne. cbn [negb].
      rewrite run_bind, (run_invoke h (Api.set_source_address_translation_none name)).
      destruct (h (Api.set_source_address_translation_none name) s1) as [[e | []] s2];
        cbn [fst snd out final trace run app]; split; try reflexivity; intros; congruence.
  - intros ->. split.
    + intros ->. reflexivity.
    + intros Hne. apply String.eqb_neq in Hne.
      rewrite run_bind. cbn [String.eqb Ascii.eqb Bool.eqb andb run out final trace].
      rewrite run_bind. rewrite Hne. cbn [negb].
      rewrite run_bind, (run_invoke h (Api.set_source_address_translation_automap name)).
      destruct (h (Api.set_source_address_translation_automap name) s1) as [[e | []] s2];
        cbn [fst snd out final trace run app]; split; try reflexivity; intros; congruence.
Qed.

Lemma set_snat_switches_mode_witness :
  let r := run Appliance.handle (set_snat "/Common/vs1" (Some "Automap")) one_server in
  trace r = [Api.get_source_address_translation_type "/Common/vs1";
             Api.set_source_address_translation_automap "/Common/vs1"] /\
  out r = Returned true.
Proof.
  destruct (set_snat_switches_mode Appliance.handle "/Common/vs1" (Some "Automap")
              one_server one_server "SRC_TRANS_NONE") as (_ & _ & Hauto).
  - vm_compute. reflexivity.
  - destruct (Hauto eq_refl) as [_ Hne]. destruct Hne as [Ht Ho].
    + discriminate.
    + split; [exact Ht | apply Ho; vm_compute; reflexivity].
Defined.

(** ** What a reconciler's result says *)

(** Runs a reconciler against an arbitrary appliance, one case per answer
    and per comparison. *)
Ltac answers h :=
  repeat first
    [ match goal with
      | |- context [h ?c ?s] =>
          let a := fresh "a" in
          destruct (h c s) as [[? | a] ?]; simpl
      end
    | match goal with
      | |- context [if ?b then _ else _] => destruct b; simpl
      | |- context [match ?o with Some _ => _ | None => _ end] => destruct o; simpl
      end ].

Ltac faithful :=
  unfold faithful_result; simpl;
  split; [| split; [| split]];
  [ intros H; first [discriminate H
                    | repeat (apply List.Forall_cons; [reflexivity |]); apply List.Forall_nil]
  | intros H; first [discriminate H
                    | do 8 (first [apply List.Exists_cons_hd; reflexivity
                                  | apply List.Exists_cons_tl])]
  | intros x H; discriminate H
  | repeat (apply List.Forall_cons; [reflexivity |]); apply List.Forall_nil ].

Lemma set_destination_faithful {R} (h : handler R) (s : R) (name : string)
      (destination : option string) (port : option Z) :
  faithful_result (run h (set_destination name destination port) s).
Proof. unfold set_destination, get_destination; simpl. answers h; faithful. Qed.

Lemma set_pool_faithful {R} (h : handler R) (s : R) (name : string)
      (pool : option string) :
  faithful_result (run h (set_pool name pool) s).
Proof. unfold set_pool, get_pool; simpl. answers h; faithful. Qed.

Lemma set_description_faithful {R} (h : handler R) (s : R) (name : string)
      (description : option string) :
  faithful_result (run h (set_description name description) s).
Proof. unfold set_description, get_description; simpl. answers h; faithful. Qed.

Lemma set_snat_faithful {R} (h : handler R) (s : R) (name : string)
      (snat : option string) :
  faithful_result (run h (set_snat name snat) s).
Proof. unfold set_snat, get_snat_type; simpl. answers h; faithful. Qed.

Lemma set_profiles_faithful {R} (h : handler R) (s : R) (name : string)
      (profiles : option (list string)) :
  faithful_result (run h (set_profiles name profiles) s).
Proof. unfold set_profiles, get_profiles; simpl. answers h; faithful. Qed.

(** ** Failed calls *)

Lemma replies_trace {R A} (h : handler R) (p : prog A) (s : R) :
  map fst (replies h p s) = trace (run h p s).
Proof.
  revert s. induction p as [a | e | x | c k IH]; intros s; simpl; try reflexivity.
  destruct (h c s) as [r s']. simpl. now rewrite IH.
Qed.

Lemma replies_try_except_else {R A B} (h : handler R) (p : prog A)
      (hd : exn -> prog B) (k : A -> prog B) (s : R) :
  replies h (try_except_else p hd k) s =
  (replies h p s ++
   match out (run h p s) with
   | Returned a => replies h (k a) (final (run h p s))
   | Raised e => replies h (hd e) (final (run h p s))
   | Exited _ => []
   end)%list.
Proof.
  revert s. induction p as [a | e | x | c f IH]; intros s; simpl; try reflexivity.
  destruct (h c s) as [r s']. simpl. now rewrite IH.
Qed.

Lemma replies_bind {R A B} (h : handler R) (p : prog A) (k : A -> prog B) (s : R) :
  replies h (bind p k) s =
  (replies h p s ++
   match out (run h p s) with
   | Returned a => replies h (k a) (final (run h p s))
   | _ => []
   end)%list.
Proof.
  unfold bind. rewrite replies_try_except_else.
  now destruct (out (run h p s)).
Qed.

Lemma fails_fast_nil {R A} (h : handler R) (p : prog A) (s : R) :
  replies h p s = [] -> fails_fast h p s.
Proof. intros E c e Hin. rewrite E in Hin. destruct Hin. Qed.

Lemma fails_fast_invoke {R} (h : handler R) (c : Api.call) (s : R) :
  fails_fast h (invoke c) s.
Proof.
  intros c' e Hin. unfold invoke in *. simpl in *.
  destruct (h c s) as [[e0 | v] s']; simpl in *;
    destruct Hin as [Hin | []]; inversion Hin; subst.
  split; [reflexivity | now exists []].
Qed.

Lemma fails_fast_bind {R A B} (h : handler R) (p : prog A) (k : A -> prog B) (s : R) :
  fails_fast h p s ->
  (forall a, out (run h p s) = Returned a -> fails_fast h (k a) (final (run h p s))) ->
  fails_fast h (bind p k) s.
Proof.
  intros Hp Hk c e Hin. rewrite replies_bind in Hin |- *. rewrite run_bind. cbn zeta.
  apply in_app_iff in Hin. destruct Hin as [Hin | Hin].
  - destruct (Hp c e Hin) as [Ho [before Hb]]. rewrite Ho. cbn [out].
    split; [reflexivity |]. exists before. now rewrite app_nil_r.
  - destruct (out (run h p s)) as [a | e' | x] eqn:Ho; try destruct Hin.
    destruct (Hk a eq_refl c e Hin) as [Hok [before Hb]]. cbn [out].
    split; [exact Hok |]. exists (replies h p s ++ before)%list.
    rewrite Hb. now rewrite app_assoc.
Qed.

Ltac fails_fast_tac :=
  repeat first
    [ apply fails_fast_bind; [| intros ? _]
    | apply fails_fast_invoke
    | apply fails_fast_nil; reflexivity
    | match goal with
      | |- fails_fast _ (if ?b then _ else _) _ => destruct b
      | |- fails_fast _ (match ?o with Some _ => _ | None => _ end) _ => destruct o
      end ].

Lemma set_destination_fails_fast {R} (h : handler R) (s : R) (name : string)
      (destination : option string) (port : option Z) :
  fails_fast h (set_destination name destination port) s.
Proof. unfold set_destination, get_destination. fails_fast_tac. Qed.

Lemma set_pool_fails_fast {R} (h : handler R) (s : R) (name : string)
      (pool : option string) :
  fails_fast h (set_pool name pool) s.
Proof. unfold set_pool, get_pool. fails_fast_tac. Qed.

Lemma set_description_fails_fast {R} (h : handler R) (s : R) (name : string)
      (description : option string) :
  fails_fast h (set_description name description) s.
Proof. unfold set_description, get_description. fails_fast_tac. Qed.

Lemma set_snat_fails_fast {R} (h : handler R) (s : R) (name : string)
      (snat : option string) :
  fails_fast h (set_snat name snat) s.
Proof. unfold set_snat, get_snat_type. fails_fast_tac. Qed.

Lemma set_profiles_fails_fast {R} (h : handler R) (s : R) (name : string)
      (profiles : option (list string)) :
  fails_fast h (set_profiles name profiles) s.
Proof. unfold set_profiles, get_profiles. fails_fast_tac. Qed.

(** X6: the result of each of the five reconcilers tells whether it
    wrote, whatever the appliance answers.  It returns false only when every
    call it made was a read, it returns true only after issuing a setter, it
    never opens or submits a transaction and never ends the process; and a
    call that the appliance answers with an exception is the reconciler's
    last call, its exception raised to the caller. *)
Theorem reconcilers_report_their_writes {R} (h : handler R) (s : R) (name : string)
        (destination : option string) (port : option Z)
        (pool description snat : option string) (profiles : option (list string)) :
  (faithful_result (run h (set_destination name destination port) s) /\
   fails_fast h (set_destination name destination port) s) /\
  (faithful_result (run h (set_pool name pool) s) /\
   fails_fast h (set_pool name pool) s) /\
  (faithful_result (run h (set_description name description) s) /\
   fails_fast h (set_description name description) s) /\
  (faithful_result (run h (set_snat name snat) s) /\
   fails_fast h (set_snat name snat) s) /\
  (faithful_result (run h (set_profiles name profiles) s) /\
   fails_fast h (set_profiles name profiles) s).
Proof.
  split; [split; [apply set_destination_faithful | apply set_destination_fails_fast] |].
  split; [split; [apply set_pool_faithful | apply set_pool_fails_fast] |].
  split; [split; [apply set_description_faithful | apply set_description_fails_fast] |].
  split; [split; [apply set_snat_faithful | apply set_snat_fails_fast] |].
  split; [apply set_profiles_faithful | apply set_profiles_fails_fast].
Qed.

(** A setter that fails: a rival removes the server between the
    reconciler's read and its write.  The setter's exception is what the
    reconciler raises, and the setter is its last call. *)
Example set_pool_raises_failed_write :
  let h := Appliance.with_rival
             (fun c s => match c with
                         | Api.set_default_pool_name vs _ => delete vs s
                         | _ => s
                         end) in
  let p := set_pool "/Common/vs1" (Some "/Common/other") in
  replies h p one_server =
    [(Api.get_default_pool_name "/Common/vs1", None);
     (Api.set_default_pool_name "/Common/vs1" "/Common/other",
      Some (Appliance.not_found "/Common/vs1"))] /\
  out (run h p one_server) = Raised (Appliance.not_found "/Common/vs1").
Proof. vm_compute. split; reflexivity. Qed.

(** ** The update path *)

Lemma reads_are_no_writes (t : list Api.call) :
  Forall (fun c => Api.is_mutating c = false) t ->
  Forall (fun c => is_write c = false) t.
Proof.
  intros H. induction H as [| c t Hc _ IH]; constructor; [| exact IH].
  unfold is_write. now rewrite Hc.
Qed.

Lemma writes_are_no_brackets (t : list Api.call) :
  Forall (fun c => is_write c = false) t ->
  Forall (fun c => is_transaction c = false) t ->
  Forall (fun c => Api.is_mutating c = false) t.
Proof.
  intros H1 H2. induction H1 as [| c t Hc _ IH]; constructor.
  - inversion H2; subst. unfold is_write in Hc. destruct (Api.is_mutating c); [| reflexivity].
    destruct (is_transaction c); simpl in *; congruence.
  - apply IH. now inversion H2.
Qed.

Lemma so_far_step {R} (acc : bool) (mid : list Api.call) (r : run_result R bool) (b : bool) :
  faithful_result r -> out r = Returned b -> so_far acc mid ->
  so_far (b || acc) (trace r ++ mid).
Proof.
  intros (Ff & Fw & _ & Ft) Ho (Ht & Hf & Hw). unfold so_far.
  split; [| split].
  - apply Forall_app. split; [exact Ft | exact Ht].
  - intros E. apply orb_false_iff in E. destruct E as [-> ->].
    apply Forall_app. split; [now apply Ff | now apply Hf].
  - intros E. apply List.Exists_app. destruct b; [left; now apply Fw |].
    simpl in E. subst acc. right. now apply Hw.
Qed.

Lemma reconcile_all_shape {R A} (h : handler R) (ps : list (prog bool))
      (k : Result -> prog A) :
  (forall p, In p ps -> forall s, faithful_result (run h p s)) ->
  forall (result : Result) (s : R),
    let r := run h (reconcile_all ps result k) s in
    (exists e, out r = Raised e /\
               Forall (fun c => is_transaction c = false) (trace r)) \/
    (exists acc mid s' res',
        so_far acc mid /\
        changed res' = changed result || acc /\ deleted res' = deleted result /\
        r = let r' := run h (k res') s' in
            mkRun (out r') (final r') (mid ++ trace r')).
Proof.
  intros Hps. induction ps as [| p ps IH]; intros result s; cbn zeta.
  - right. exists false, [], s, result. split; [| split; [| split]].
    + split; [constructor | split; [intros _; constructor | discriminate]].
    + now rewrite orb_false_r.
    + reflexivity.
    + cbn [reconcile_all app]. now destruct (run h (k result) s).
  - cbn [reconcile_all]. rewrite run_bind. cbn zeta.
    pose proof (Hps p (or_introl eq_refl) s) as F.
    destruct (run h p s) as [o f t] eqn:Er. destruct o as [b | e | x]; cbn [out final trace].
    + destruct (IH (fun q Hq => Hps q (or_intror Hq)) (or_changed result b) f)
        as [(e & Ho & Ht) | (acc & mid & s' & res' & Hsf & Hc & Hd & Hr)].
      * left. exists e. cbn [out trace]. split; [exact Ho |].
        apply Forall_app. split; [apply F | exact Ht].
      * right. exists (b || acc), (t ++ mid)%list, s', res'.
        split; [| split; [| split]].
        -- exact (so_far_step acc mid _ b F eq_refl Hsf).
        -- rewrite Hc. cbn [or_changed changed]. now rewrite orb_assoc.
        -- rewrite Hd. reflexivity.
        -- rewrite Hr. cbn zeta. cbn [out final trace]. now rewrite app_assoc.
    + left. exists e. split; [reflexivity | apply F].
    + exfalso. destruct F as (_ & _ & Fx & _). now apply (Fx x).
Qed.

Lemma main_present_update_as_fold (partition name : string)
      (destination : option string) (port : option Z)
      (all_profiles : option (list string)) (pool description snat : option string)
      (result : Result) :
  main_present_update false partition name destination port all_profiles
                      pool description snat result =
  do _ <- invoke Api.start_transaction ;;
  reconcile_all
    [set_destination name (fq_name_opt partition destination) port;
     set_pool name pool;
     set_description name description;
     set_snat name snat;
     set_profiles name all_profiles]
    result
    (fun result => do _ <- invoke Api.submit_transaction ;; Ret result).
Proof. reflexivity. Qed.

Lemma update_run_shape {R} (h : handler R) (s : R) (partition name : string)
      (destination : option string) (port : option Z)
      (all_profiles : option (list string)) (pool description snat : option string)
      (result : Result) :
  let r := run h (main_present_update false partition name destination port
                                      all_profiles pool description snat result) s in
  exists mid tail,
    trace r = Api.start_transaction :: (mid ++ tail)%list /\
    Forall (fun c => is_transaction c = false) mid /\
    (tail = [] \/ tail = [Api.submit_transaction]) /\
    (forall res, out r = Returned res ->
                 tail = [Api.submit_transaction] /\
                 exists acc, so_far acc mid /\
                             changed res = changed result || acc /\
                             deleted res = deleted result) /\
    (forall x, out r <> Exited x) /\
    (tail = [] -> exists e, out r = Raised e).
Proof.
  cbn zeta. rewrite main_present_update_as_fold.
  rewrite run_bind, (run_invoke h Api.start_transaction).
  destruct (h Api.start_transaction s) as [[e | []] s0]; cbn [fst snd out final trace].
  - exists [], []. repeat split; try discriminate; auto. now exists e.
  - match goal with
    | |- context [run h (reconcile_all ?ps ?res ?k) s0] =>
        destruct (reconcile_all_shape h ps k) with (result := res) (s := s0)
          as [(e & Ho & Ht) | (acc & mid & s' & res' & Hsf & Hc & Hd & Hr)]
    end.
    + intros p Hp s2. simpl in Hp.
      destruct Hp as [<- | [<- | [<- | [<- | [<- | []]]]]].
      * apply set_destination_faithful.
      * apply set_pool_faithful.
      * apply set_description_faithful.
      * apply set_snat_faithful.
      * apply set_profiles_faithful.
    + eexists. exists []. rewrite app_nil_r. cbn [app].
      split; [reflexivity |]. split; [exact Ht |]. split; [now left |].
      rewrite Ho. repeat split; try discriminate. now exists e.
    + rewrite Hr. cbn zeta. cbn [out final trace app].
      rewrite run_bind, (run_invoke h Api.submit_transaction).
      exists mid, [Api.submit_transaction].
      destruct (h Api.submit_transaction s') as [[e | []] s3];
        cbn [fst snd out final trace run app].
      * split; [reflexivity |]. split; [apply Hsf |]. split; [now right |].
        repeat split; try discriminate.
      * split; [reflexivity |]. split; [apply Hsf |]. split; [now right |].
        split; [| split; [discriminate | discriminate]].
        intros res Hres. inversion Hres. subst res.
        split; [reflexivity |]. exists acc. auto.
Qed.

(** ** Paths with their endings *)

Lemma paths_try_except_else {A B} (P : Api.call -> Prop)
      (V1 : A -> Prop) (V : B -> Prop) (E : exit -> Prop)
      (p : prog A) (hd : exn -> prog B) (k : A -> prog B) :
  all_paths P (ends_like V1 E) p ->
  (forall a, V1 a -> all_paths P (ends_like V E) (k a)) ->
  (forall e, all_paths P (ends_like V E) (hd e)) ->
  all_paths P (ends_like V E) (try_except_else p hd k).
Proof.
  intros Hp Hk Hh.
  apply all_paths_try_except_else with (Q1 := ends_like V1 E).
  - exact Hp.
  - exact Hk.
  - intros e _. apply Hh.
  - intros x Hx. exact Hx.
Qed.

Lemma paths_bind {A B} (P : Api.call -> Prop)
      (V1 : A -> Prop) (V : B -> Prop) (E : exit -> Prop)
      (p : prog A) (k : A -> prog B) :
  all_paths P (ends_like V1 E) p ->
  (forall a, V1 a -> all_paths P (ends_like V E) (k a)) ->
  all_paths P (ends_like V E) (bind p k).
Proof.
  intros Hp Hk. apply paths_try_except_else with (V1 := V1); auto.
  intros e. now constructor.
Qed.

Lemma paths_invoke (P : Api.call -> Prop) (E : exit -> Prop) (c : Api.call) :
  P c -> all_paths P (ends_like (fun _ => True) E) (invoke c).
Proof. intros Hc. apply all_paths_invoke; [exact Hc | |]; intros; exact I. Qed.

Lemma paths_on_operation_failed {A} (P : Api.call -> Prop) (V : A -> Prop)
      (E : exit -> Prop) (pat : string) (k : prog A) (e : exn) :
  all_paths P (ends_like V E) k ->
  all_paths P (ends_like V E) (on_operation_failed pat k e).
Proof.
  intros Hk. destruct e as [msg | msg]; simpl; [| now constructor].
  destruct (contains pat msg); [exact Hk | now constructor].
Qed.

(** Breaks a goal [all_paths P (ends_like V E) p] down along [p]; the
    value of an intermediate step is left unconstrained. *)
Ltac paths_tac :=
  repeat first
    [ apply (paths_bind _ (fun _ => True)); [| intros ? _]
    | apply (paths_try_except_else _ (fun _ => True)); [| intros ? _ | intros ?]
    | match goal with
      | |- all_paths ?P (ends_like _ ?E) (invoke ?c) => apply (paths_invoke P E c)
      end
    | apply paths_on_operation_failed
    | apply paths_Ret
    | apply paths_Raise; exact I
    | apply paths_Exit
    | match goal with
      | |- all_paths _ _ (if ?b then _ else _) => destruct b
      | |- all_paths _ _ (match ?o with Some _ => _ | None => _ end) => destruct o eqn:?
      | |- all_paths _ _ (let '(_, _) := ?p in _) => destruct p
      end ].

Ltac unfold_module :=
  unfold main_try, main_absent, main_present_create, main_present_update,
    main_enabled_disabled, vs_exists, vs_create, vs_remove, set_profiles, get_profiles,
    set_snat, get_snat_type, set_pool, get_pool, set_destination, get_destination,
    set_description, get_description, try_except.

Lemma main_try_ends (m : AnsibleModule) :
  all_paths (targets_only (fq_name (param_partition m) (param_name m)))
            (ends_like (fun _ => True) (eq create_needs_both)) (main_try m).
Proof.
  destruct m as [cm st part nm dest port profs pool descr snat].
  unfold_module.
  cbn [param_state param_partition param_name param_port check_mode param_destination
       param_all_profiles param_pool param_description param_snat].
  destruct st; paths_tac; try exact I; try reflexivity.
Qed.

(** ** The invocation as a whole *)

(** X7: whatever the appliance answers, an invocation ends by reporting:
    with a result, with the create-path validation failure, or with
    "received exception: ..." carrying an exception's text.  No exception
    leaves [main], and the port-range failure is never reported. *)
Theorem main_always_reports {R} (h : handler R) (m : AnsibleModule) (s : R) :
  main_end (out (run h (main m) s)).
Proof.
  rewrite run_main. cbn zeta. cbn [out].
  destruct (all_paths_run _ _ (main_try m) h s (main_try_ends m)) as [_ Ho].
  unfold main_end.
  destruct (out (run h (main_try m) s)) as [res | e | x]; cbn [ends_like] in Ho.
  - left. now exists res.
  - right. right. now exists e.
  - right. left. now subst x.
Qed.

(** X13: every call of an invocation names the one virtual server
    [/partition/name] (or is a transaction call): no other server is read or
    written, whatever the desired state and whatever the appliance answers. *)
Theorem main_touches_one_server {R} (h : handler R) (m : AnsibleModule) (s : R) :
  Forall (targets_only (fq_name (param_partition m) (param_name m)))
         (trace (run h (main m) s)).
Proof.
  rewrite run_main. cbn zeta. cbn [trace].
  now destruct (all_paths_run _ _ (main_try m) h s (main_try_ends m)) as [Ht _].
Qed.

(** X14: for desired state enabled or disabled, and for desired state
    absent in check mode, an invocation makes no remote call at all: it
    reports [changed] equal to the check-mode flag and leaves the appliance
    as it is, even when the named server does not exist. *)
Theorem silent_states {R} (h : handler R) (m : AnsibleModule) (s : R) :
  param_state m = enabled \/ param_state m = disabled \/
  (param_state m = absent /\ check_mode m = true) ->
  run h (main m) s = mkRun (Exited (exit_json (mkResult (check_mode m) None))) s [].
Proof.
  intros H. rewrite run_main. unfold main_try.
  destruct H as [-> | [-> | [-> ->]]]; try reflexivity;
    destruct (check_mode m); reflexivity.
Qed.

Lemma silent_states_witness :
  run Appliance.handle (main (sample_module false disabled)) ∅ =
  mkRun (Exited (exit_json (mkResult false None))) ∅ [].
Proof.
  apply (silent_states Appliance.handle (sample_module false disabled) ∅).
  right. left. reflexivity.
Defined.

Lemma run_vs_exists_answered {R} (h : handler R) (vs : string) (s s1 : R)
      (a : exn + unit) :
  h (Api.get_object_status vs) s = (a, s1) ->
  run h (vs_exists vs) s =
  mkRun (match a with
         | inr _ => Returned true
         | inl e => if is_not_found e then Returned false else Raised e
         end) s1 [Api.get_object_status vs].
Proof.
  intros Ha. unfold vs_exists. rewrite run_try_except_else.
  rewrite (run_invoke h (Api.get_object_status vs)), Ha.
  destruct a as [[msg | msg] | []];
    cbn [fst snd out final trace run on_operation_failed is_not_found app];
    try reflexivity.
  now destruct (contains "was not found" msg).
Qed.

(** ** Desired state absent *)

(** X8: desired state absent, outside check mode.  When the lookup finds
    the server and the delete call succeeds, the invocation reports
    [changed = true] with the deleted name.  When the lookup fails, no delete
    call is made: a "was not found" failure gives [changed = false], any other
    failure is reported as the invocation's failure. *)
Theorem absent_deletes_only_when_found {R} (h : handler R) (m : AnsibleModule)
        (s s1 : R) (a : exn + unit) :
  param_state m = absent ->
  check_mode m = false ->
  let name := fq_name (param_partition m) (param_name m) in
  h (Api.get_object_status name) s = (a, s1) ->
  match a with
  | inr _ =>
      forall s2, h (Api.delete_virtual_server name) s1 = (inr tt, s2) ->
                 run h (main m) s =
                 mkRun (Exited (exit_json (mkResult true (Some name)))) s2
                       [Api.get_object_status name; Api.delete_virtual_server name]
  | inl e =>
      run h (main m) s =
      mkRun (Exited (if is_not_found e
                     then exit_json (mkResult false None)
                     else fail_json ("received exception: " ++ str e)))
            s1 [Api.get_object_status name]
  end.
Proof.
  intros Hst Hcm name Ha. rewrite run_main. unfold main_try. rewrite Hst, Hcm.
  fold name. unfold main_absent. cbn [negb].
  rewrite run_bind, (run_vs_exists_answered h name s s1 a Ha).
  destruct a as [e | []]; cbn zeta; cbn [out final trace].
  - now destruct (is_not_found e).
  - intros s2 Hdel. unfold vs_remove. rewrite run_try_except_else.
    rewrite (run_invoke h (Api.delete_virtual_server name)), Hdel. reflexivity.
Qed.

Lemma absent_deletes_only_when_found_witness :
  run Appliance.handle (main (sample_module false absent)) ∅ =
  mkRun (Exited (exit_json (mkResult false None))) ∅
        [Api.get_object_status "/Common/vs1"].
Proof.
  apply (absent_deletes_only_when_found Appliance.handle (sample_module false absent)
           ∅ ∅ (inl (Appliance.not_found "/Common/vs1"))).
  - reflexivity.
  - reflexivity.
  - vm_compute. reflexivity.
Defined.

(** ** The create path *)

Lemma run_vs_create {R} (h : handler R) (name destination : string)
      (port : Z) (pool : option string) (s : R) :
  run h (vs_create name destination port pool) s =
  mkRun (Returned tt) (snd (h (Api.create name destination port pool _profiles) s))
        [Api.create name destination port pool _profiles].
Proof.
  unfold vs_create, try_except. rewrite run_try_except_else.
  rewrite (run_invoke h (Api.create name destination port pool _profiles)).
  now destruct (h (Api.create name destination port pool _profiles) s)
    as [[e | []] s'].
Qed.

Lemma after_create_paths (name : string) (all_profiles : option (list string))
      (description snat : option string) (result : Result) :
  all_paths (fun c => update_only c = false)
            (ends_like (eq (result, false)) (fun _ => False))
            (do _ <- set_profiles name all_profiles ;;
             do _ <- set_snat name snat ;;
             do _ <- set_description name description ;;
             Ret (result, false)).
Proof. unfold_module. paths_tac; reflexivity. Qed.

Lemma after_create_paths_only (name : string) (all_profiles : option (list string))
      (description snat : option string) (result : Result) :
  all_paths (after_create_call name)
            (ends_like (eq (result, false)) (fun _ => False))
            (do _ <- set_profiles name all_profiles ;;
             do _ <- set_snat name snat ;;
             do _ <- set_description name description ;;
             Ret (result, false)).
Proof.
  unfold_module. paths_tac; try reflexivity; unfold after_create_call;
    repeat first [left; reflexivity | left; eexists; reflexivity
                 | eexists; reflexivity | right].
Qed.

Lemma after_create_is_not_update (name : string) (c : Api.call) :
  after_create_call name c -> update_only c = false.
Proof.
  unfold after_create_call.
  intros [-> | [[ps ->] | [[ps ->] | [-> | [-> | [-> | [-> | [d ->]]]]]]]]; reflexivity.
Qed.

(** X9: the create path, for any appliance.  Desired state present
    outside check mode, the lookup says "was not found", destination and
    port supplied: the invocation issues the create call -- with the
    destination as given, the port, the qualified pool and the [tcp]
    profile -- and after it only calls of the profile, SNAT and description
    reconcilers for the same server.  So it never opens a transaction and
    never reads or sets the destination or the pool.  It reports
    [changed = true], or the exception of a reconciler call; whether the
    create call itself succeeded makes no difference. *)
Theorem create_path_runs_outside_transaction {R} (h : handler R) (m : AnsibleModule)
        (s s1 : R) (e : exn) (d : string) (p : Z) :
  param_state m = present ->
  check_mode m = false ->
  let name := fq_name (param_partition m) (param_name m) in
  h (Api.get_object_status name) s = (inl e, s1) ->
  is_not_found e = true ->
  param_destination m = Some d -> truthy_str d = true ->
  param_port m = Some p -> truthy_int p = true ->
  let r := run h (main m) s in
  let c := Api.create name d p (fq_name_opt (param_partition m) (param_pool m))
                      [mkProfile "PROFILE_CONTEXT_TYPE_ALL" "tcp"] in
  (exists rest, trace r = Api.get_object_status name :: c :: rest /\
                Forall (after_create_call name) rest /\
                Forall (fun c => update_only c = false) rest) /\
  (out r = Exited (exit_json (mkResult true None)) \/
   exists e', out r = Exited (fail_json ("received exception: " ++ str e'))).
Proof.
  intros Hst Hcm name Hget Hnf Hd Td Hp Tp. cbn zeta.
  rewrite run_main. unfold main_try. rewrite Hst, Hcm, Hd, Hp. fold name.
  rewrite run_bind. unfold main_present_create.
  rewrite run_bind, (run_vs_exists_answered h name s s1 _ Hget), Hnf.
  cbn zeta. cbn [out final trace negb]. rewrite Td, Tp. cbn [negb orb].
  rewrite run_try_except_else, run_bind, run_vs_create.
  cbn zeta. cbn [out final trace run app].
  match goal with
  | |- context [run h ?k ?s2] =>
      match k with
      | bind _ _ =>
          destruct (all_paths_run _ _ k h s2
                      (after_create_paths_only name _ _ _ (mkResult true None)))
            as [Ht Ho];
          destruct (run h k s2) as [o f t]
      end
  end.
  cbn [out final trace] in *.
  assert (Hu : Forall (fun c => update_only c = false) t).
  { eapply Forall_impl; [exact Ht |]. intros c Hc. now apply (after_create_is_not_update name). }
  destruct o as [[res upd] | e' | x]; cbn [ends_like] in Ho; cbn [out final trace run].
  - inversion Ho. subst res upd. cbn [out final trace run]. split.
    + eexists. split; [reflexivity |]. now rewrite !app_nil_r.
    + now left.
  - split.
    + eexists. split; [reflexivity | split; [exact Ht | exact Hu]].
    + right. now exists e'.
  - contradiction.
Qed.

Lemma create_path_runs_outside_transaction_witness :
  let r := run Appliance.handle (main (sample_module false present)) ∅ in
  (exists rest,
      trace r = Api.get_object_status "/Common/vs1"
                :: Api.create "/Common/vs1" "10.0.0.1" 443 (Some "/Common/web")
                              [mkProfile "PROFILE_CONTEXT_TYPE_ALL" "tcp"]
                :: rest /\
      Forall (after_create_call "/Common/vs1") rest /\
      Forall (fun c => update_only c = false) rest) /\
  (out r = Exited (exit_json (mkResult true None)) \/
   exists e', out r = Exited (fail_json ("received exception: " ++ str e'))).
Proof.
  apply (create_path_runs_outside_transaction Appliance.handle
           (sample_module false present) ∅ ∅ (Appliance.not_found "/Common/vs1")
           "10.0.0.1" 443%Z).
  - reflexivity.
  - reflexivity.
  - vm_compute. reflexivity.
  - vm_compute. reflexivity.
  - reflexivity.
  - reflexivity.
  - reflexivity.
  - reflexivity.
Defined.

(** ** The changed flag and the transaction *)

Lemma run_present_create_answered {R} (h : handler R) (name : string)
      (destination : option string) (port : option Z)
      (all_profiles : option (list string)) (pool description snat : option string)
      (s s1 : R) (a : exn + unit) :
  h (Api.get_object_status name) s = (a, s1) ->
  run h (main_present_create false name destination port all_profiles
                             pool description snat) s =
  match a with
  | inr _ => mkRun (Returned (default_result, true)) s1 [Api.get_object_status name]
  | inl e =>
      if is_not_found e then
        match destination, port with
        | Some d, Some p =>
            if negb (truthy_str d) || negb (truthy_int p)
            then mkRun (Exited create_needs_both) s1 [Api.get_object_status name]
            else
              let c := Api.create name d p pool _profiles in
              let r' := run h (do _ <- set_profiles name all_profiles ;;
                               do _ <- set_snat name snat ;;
                               do _ <- set_description name description ;;
                               Ret (mkResult true None, false))
                            (snd (h c s1)) in
              mkRun (out r') (final r')
                    (Api.get_object_status name :: c :: trace r')
        | _, _ => mkRun (Exited create_needs_both) s1 [Api.get_object_status name]
        end
      else mkRun (Raised e) s1 [Api.get_object_status name]
  end.
Proof.
  intros Ha. unfold main_present_create.
  rewrite run_bind, (run_vs_exists_answered h name s s1 a Ha).
  destruct a as [e | []]; cbn zeta; cbn [out final trace]; [| reflexivity].
  destruct (is_not_found e); cbn [out final trace negb]; [| reflexivity].
  destruct destination as [d |]; [| reflexivity].
  destruct port as [p |]; [| reflexivity].
  destruct (negb (truthy_str d) || negb (truthy_int p)); [reflexivity |].
  cbn [negb]. rewrite run_try_except_else, run_bind, run_vs_create.
  cbn zeta. cbn [out final trace run app].
  match goal with
  | |- context [run h ?k ?s2] =>
      match k with
      | bind _ _ =>
          destruct (all_paths_run _ _ k h s2
                      (after_create_paths name all_profiles description snat
                                          (mkResult true None))) as [_ Ho];
          destruct (run h k s2) as [o f t]
      end
  end.
  cbn [out final trace] in *.
  destruct o as [[res upd] | e' | x]; cbn [ends_like] in Ho;
    cbn [out final trace run].
  - inversion Ho. cbn [out final trace run]. now rewrite ?app_nil_r.
  - reflexivity.
  - contradiction.
Qed.

Lemma replies_main {R} (h : handler R) (m : AnsibleModule) (s : R) :
  replies h (main m) s = replies h (main_try m) s.
Proof.
  unfold main. rewrite port_guard_false, replies_bind. cbn [replies run out final app].
  rewrite replies_bind. unfold try_except.
  rewrite replies_try_except_else, run_try_except_else. cbn zeta.
  destruct (out (run h (main_try m) s)) as [res | e | x];
    cbn [replies run out final]; now rewrite ?app_nil_r.
Qed.

Lemma reconcile_all_fails_fast {R A} (h : handler R) (ps : list (prog bool))
      (k : Result -> prog A) :
  (forall p, In p ps -> forall s, fails_fast h p s) ->
  (forall result s, fails_fast h (k result) s) ->
  forall result s, fails_fast h (reconcile_all ps result k) s.
Proof.
  intros Hps Hk. induction ps as [| p ps IH]; intros result s; cbn [reconcile_all].
  - apply Hk.
  - apply fails_fast_bind.
    + apply Hps. now left.
    + intros b _. apply IH. intros q Hq. apply Hps. now right.
Qed.

Lemma update_fails_fast {R} (h : handler R) (s : R) (partition name : string)
      (destination : option string) (port : option Z)
      (all_profiles : option (list string)) (pool description snat : option string)
      (result : Result) :
  fails_fast h (main_present_update false partition name destination port
                                    all_profiles pool description snat result) s.
Proof.
  rewrite main_present_update_as_fold.
  apply fails_fast_bind; [apply fails_fast_invoke |]. intros _ _.
  apply reconcile_all_fails_fast.
  - intros p Hp s2. simpl in Hp.
    destruct Hp as [<- | [<- | [<- | [<- | [<- | []]]]]].
    + apply set_destination_fails_fast.
    + apply set_pool_fails_fast.
    + apply set_description_fails_fast.
    + apply set_snat_fails_fast.
    + apply set_profiles_fails_fast.
  - intros res s2. apply fails_fast_bind; [apply fails_fast_invoke |].
    intros _ _. now apply fails_fast_nil.
Qed.

(** X10: the update path, for any appliance.  Desired state present
    outside check mode and the lookup finds the server: the transaction is
    opened right after the lookup, the reconcilers' calls follow, and
    [submit_transaction], when it is issued, is the last call.  A result is
    reported only after the submit call.  When the appliance answers a call
    with an exception, the invocation fails with that exception's text; and
    when that call is not the submit call itself, the open transaction is
    never submitted. *)
Theorem update_path_is_bracketed {R} (h : handler R) (m : AnsibleModule) (s s1 : R) :
  param_state m = present ->
  check_mode m = false ->
  let name := fq_name (param_partition m) (param_name m) in
  h (Api.get_object_status name) s = (inr tt, s1) ->
  let r := run h (main m) s in
  (exists mid tail,
      trace r = Api.get_object_status name :: Api.start_transaction
                :: (mid ++ tail)%list /\
      Forall (fun c => is_transaction c = false) mid /\
      (tail = [] \/ tail = [Api.submit_transaction]) /\
      (forall res, out r = Exited (exit_json res) -> tail = [Api.submit_transaction]) /\
      (tail = [] ->
       exists e, out r = Exited (fail_json ("received exception: " ++ str e)))) /\
  (forall c e,
      In (c, Some e) (replies h (main m) s) ->
      out r = Exited (fail_json ("received exception: " ++ str e)) /\
      (c <> Api.submit_transaction -> ~ In Api.submit_transaction (trace r))).
Proof.
  intros Hst Hcm name Hget. cbn zeta.
  rewrite replies_main, run_main. unfold main_try. rewrite Hst, Hcm. fold name.
  rewrite replies_bind.
  rewrite run_bind, (run_present_create_answered h name _ _ _ _ _ _ s s1 _ Hget).
  cbn zeta. cbn [out final trace app].
  assert (Hrep : replies h (main_present_create false name (param_destination m)
                              (param_port m)
                              (fq_list_names (param_partition m) (param_all_profiles m))
                              (fq_name_opt (param_partition m) (param_pool m))
                              (param_description m) (param_snat m)) s
                 = [(Api.get_object_status name, None)]).
  { unfold main_present_create, vs_exists. simpl. rewrite Hget. reflexivity. }
  rewrite Hrep. clear Hrep.
  destruct (update_run_shape h s1 (param_partition m) name (param_destination m)
              (param_port m) (fq_list_names (param_partition m) (param_all_profiles m))
              (fq_name_opt (param_partition m) (param_pool m))
              (param_description m) (param_snat m) default_result)
    as (mid & tail & Ht & Hmid & Htail & Hret & Hex & Hnil).
  pose proof (update_fails_fast h s1 (param_partition m) name (param_destination m)
                (param_port m) (fq_list_names (param_partition m) (param_all_profiles m))
                (fq_name_opt (param_partition m) (param_pool m))
                (param_description m) (param_snat m) default_result) as Hff.
  pose proof (replies_trace h (main_present_update false (param_partition m) name
                (param_destination m) (param_port m)
                (fq_list_names (param_partition m) (param_all_profiles m))
                (fq_name_opt (param_partition m) (param_pool m))
                (param_description m) (param_snat m) default_result) s1) as Hrt.
  unfold fails_fast in Hff. cbn zeta in Ht, Hret, Hex, Hnil.
  set (upd := main_present_update false (param_partition m) name (param_destination m)
                (param_port m) (fq_list_names (param_partition m) (param_all_profiles m))
                (fq_name_opt (param_partition m) (param_pool m))
                (param_description m) (param_snat m) default_result) in *.
  destruct (run h upd s1) as [o f t]. cbn [out final trace] in *. subst t.
  split.
  - exists mid, tail. split; [reflexivity |]. split; [exact Hmid |].
    split; [exact Htail |]. split.
    + intros res Hres. destruct o as [res' | e | x].
      * now destruct (Hret res' eq_refl).
      * discriminate Hres.
      * exfalso. now apply (Hex x).
    + intros Hn. destruct (Hnil Hn) as [e ->]. now exists e.
  - intros c e Hin. cbn [app] in Hin. destruct Hin as [Hin | Hin]; [discriminate Hin |].
    destruct (Hff c e Hin) as [Ho [before Hb]]. subst o. split; [reflexivity |].
    intros Hc Hsub.
    rewrite Hb, map_app in Hrt. cbn [map fst] in Hrt.
    destruct Htail as [-> | ->].
    + rewrite app_nil_r in Hsub.
      destruct Hsub as [Hsub | [Hsub | Hsub]]; try discriminate.
      rewrite List.Forall_forall in Hmid. specialize (Hmid _ Hsub). discriminate.
    + change (Api.start_transaction :: mid ++ [Api.submit_transaction])%list
        with ((Api.start_transaction :: mid) ++ [Api.submit_transaction])%list in Hrt.
      apply app_inj_tail in Hrt. destruct Hrt as [_ Hrt]. congruence.
Qed.

Lemma update_path_is_bracketed_witness :
  let r := run Appliance.handle (main (sample_module false present)) one_server in
  (exists mid tail,
      trace r = Api.get_object_status "/Common/vs1" :: Api.start_transaction
                :: (mid ++ tail)%list /\
      Forall (fun c => is_transaction c = false) mid /\
      (tail = [] \/ tail = [Api.submit_transaction]) /\
      (forall res, out r = Exited (exit_json res) -> tail = [Api.submit_transaction]) /\
      (tail = [] ->
       exists e, out r = Exited (fail_json ("received exception: " ++ str e)))) /\
  (forall c e,
      In (c, Some e)
         (replies Appliance.handle (main (sample_module false present)) one_server) ->
      out r = Exited (fail_json ("received exception: " ++ str e)) /\
      (c <> Api.submit_transaction -> ~ In Api.submit_transaction (trace r))).
Proof.
  apply (update_path_is_bracketed Appliance.handle (sample_module false present)
           one_server one_server).
  - reflexivity.
  - reflexivity.
  - vm_compute. reflexivity.
Defined.

(** A call that fails in between: a rival removes the server right before
    the pool is read.  The invocation stops there and fails with the
    exception's text; the transaction it opened is not submitted. *)
Example update_stops_at_failed_read :
  let h := Appliance.with_rival
             (fun c s => match c with
                         | Api.get_default_pool_name vs => delete vs s
                         | _ => s
                         end) in
  let m := sample_module false present in
  let r := run h (main m) one_server in
  replies h (main m) one_server =
    [(Api.get_object_status "/Common/vs1", None);
     (Api.start_transaction, None);
     (Api.get_destination_v2 "/Common/vs1", None);
     (Api.get_default_pool_name "/Common/vs1",
      Some (Appliance.not_found "/Common/vs1"))] /\
  out r = Exited (fail_json
    "received exception: The requested virtual server (/Common/vs1) was not found.").
Proof. vm_compute. split; reflexivity. Qed.

(** X11: outside check mode the reported [changed] flag matches what was
    sent to the appliance, whatever it answers.  A result with
    [changed = true] is reported only after a writing call (create, delete or
    a setter) was issued; and for every desired state but absent, a result
    with [changed = false] is reported only when no writing call was issued.
    (For absent, [changed = false] is also reported after a delete call that
    failed with "was not found".) *)
Theorem changed_flag_tells_writes {R} (h : handler R) (m : AnsibleModule) (s : R)
        (res : Result) :
  check_mode m = false ->
  let r := run h (main m) s in
  out r = Exited (exit_json res) ->
  (changed res = true -> Exists (fun c => is_write c = true) (trace r)) /\
  (param_state m <> absent -> changed res = false ->
   Forall (fun c => is_write c = false) (trace r)).
Proof.
  intros Hcm. cbn zeta. rewrite run_main. unfold main_try. rewrite Hcm.
  set (name := fq_name (param_partition m) (param_name m)).
  destruct (param_state m) eqn:Hst; cbn zeta; cbn [out final trace].
  - (* present *)
    destruct (h (Api.get_object_status name) s) as [a s1] eqn:Hget.
    rewrite run_bind, (run_present_create_answered h name _ _ _ _ _ _ s s1 a Hget).
    destruct a as [e | []]; cbn zeta; cbn [out final trace].
    + destruct (is_not_found e); [| discriminate].
      destruct (param_destination m) as [d |]; [| discriminate].
      destruct (param_port m) as [p |]; [| discriminate].
      destruct (negb (truthy_str d) || negb (truthy_int p)); [discriminate |].
      cbn zeta. cbn [out final trace].
      match goal with
      | |- context [run h ?k ?s2] =>
          match k with
          | bind _ _ =>
              destruct (all_paths_run _ _ k h s2
                          (after_create_paths name
                             (fq_list_names (param_partition m) (param_all_profiles m))
                             (param_description m) (param_snat m)
                             (mkResult true None))) as [_ Ho];
              destruct (run h k s2) as [o f t]
          end
      end.
      cbn [out final trace] in *.
      destruct o as [[res' upd] | e' | x]; cbn [ends_like] in Ho;
        cbn [out final trace run]; [| discriminate | contradiction].
      inversion Ho. subst res' upd. cbn [out final trace run].
      intros Hres. inversion Hres. subst res. split.
      * intros _. apply List.Exists_cons_tl, List.Exists_cons_hd. reflexivity.
      * intros _ Hc. discriminate Hc.
    + destruct (update_run_shape h s1 (param_partition m) name (param_destination m)
                  (param_port m)
                  (fq_list_names (param_partition m) (param_all_profiles m))
                  (fq_name_opt (param_partition m) (param_pool m))
                  (param_description m) (param_snat m) default_result)
        as (mid & tail & Ht & Hmid & Htail & Hret & Hex & Hnil).
      cbn zeta in Ht, Hret, Hex, Hnil.
      destruct (run h (main_present_update false _ _ _ _ _ _ _ _ _) s1) as [o f t].
      cbn [out final trace app] in *. subst t.
      destruct o as [res' | e | x]; [| discriminate | intros _; exfalso; now apply (Hex x)].
      intros Hres. inversion Hres. subst res'.
      destruct (Hret res eq_refl) as (-> & acc & (_ & Hf & Hw) & Hc & _).
      cbn [default_result changed orb] in Hc. split.
      * intros Ht. rewrite Hc in Ht.
        apply List.Exists_cons_tl, List.Exists_cons_tl, List.Exists_app. left.
        now apply Hw.
      * intros _ Hf'. rewrite Hc in Hf'.
        apply List.Forall_cons; [reflexivity |].
        apply List.Forall_cons; [reflexivity |].
        apply Forall_app. split.
        -- apply reads_are_no_writes. now apply Hf.
        -- apply List.Forall_cons; [reflexivity | apply List.Forall_nil].
  - (* absent *)
    unfold main_absent. cbn [negb].
    destruct (h (Api.get_object_status name) s) as [a s1] eqn:Hget.
    rewrite run_bind, (run_vs_exists_answered h name s s1 a Hget).
    destruct a as [e | []]; cbn zeta; cbn [out final trace].
    + destruct (is_not_found e); cbn [out final trace run]; [| discriminate].
      intros Hres. inversion Hres. subst res. split; [discriminate | congruence].
    + unfold vs_remove. rewrite run_try_except_else.
      rewrite (run_invoke h (Api.delete_virtual_server name)).
      destruct (h (Api.delete_virtual_server name) s1) as [[e | []] s2];
        cbn [fst snd out final trace run app].
      * destruct e as [msg | msg]; cbn [on_operation_failed run out final trace];
          [| discriminate].
        destruct (contains "was not found" msg); cbn [run out final trace];
          [| discriminate].
        intros Hres. inversion Hres. subst res. split; [discriminate | congruence].
      * intros Hres. inversion Hres. subst res. split; [| congruence].
        intros _. apply List.Exists_cons_tl, List.Exists_cons_hd. reflexivity.
  - (* enabled *)
    cbn. intros Hres. inversion Hres. subst res.
    split; [discriminate | intros; apply List.Forall_nil].
  - (* disabled *)
    cbn. intros Hres. inversion Hres. subst res.
    split; [discriminate | intros; apply List.Forall_nil].
Qed.

Lemma changed_flag_tells_writes_witness :
  let r := run Appliance.handle (main (sample_module false present)) one_server in
  (changed (mkResult false None) = true ->
   Exists (fun c => is_write c = true) (trace r)) /\
  (present <> absent -> changed (mkResult false None) = false ->
   Forall (fun c => is_write c = false) (trace r)).
Proof.
  apply (changed_flag_tells_writes Appliance.handle (sample_module false present)
           one_server (mkResult false None)).
  - reflexivity.
  - vm_compute. reflexivity.
Defined.

(** ** A live update against the test double *)

Lemma set_destination_post_frame (s : gmap string VirtualServer) (name : string)
      (v : VirtualServer) (destination : option string) (port : option Z) :
  s !! name = Some v ->
  exists b x tr,
    run Appliance.handle (set_destination name destination port) s =
    mkRun (Returned b) (<[name := Appliance.with_destination x v]> s) tr /\
    destination_ok destination port (Appliance.with_destination x v) /\
    (destination = None \/ port = None -> x = vs_destination v).
Proof.
  intros Hv.
  destruct (set_destination_post s name v destination port Hv) as (b & x & tr & E & O).
  destruct destination as [d |]; [destruct port as [p |] |].
  - exists b, x, tr. split; [exact E | split; [exact O |]]. intros [H | H]; discriminate.
  - exists false, (vs_destination v), [Api.get_destination_v2 name].
    assert (Hok : destination_ok (Some d) None v) by (intros ? ? _ H; discriminate).
    rewrite (set_destination_noop s name v _ _ Hv Hok).
    rewrite insert_same by (rewrite Hv; now destruct v).
    split; [reflexivity | split; [| reflexivity]]. intros ? ? _ H. discriminate.
  - exists false, (vs_destination v), [Api.get_destination_v2 name].
    assert (Hok : destination_ok None port v) by (intros ? ? H; discriminate).
    rewrite (set_destination_noop s name v _ _ Hv Hok).
    rewrite insert_same by (rewrite Hv; now destruct v).
    split; [reflexivity | split; [| reflexivity]]. intros ? ? H. discriminate.
Qed.

Lemma set_pool_post_frame (s : gmap string VirtualServer) (name : string)
      (v : VirtualServer) (pool : option string) :
  s !! name = Some v ->
  exists b x tr,
    run Appliance.handle (set_pool name pool) s =
    mkRun (Returned b) (<[name := Appliance.with_pool x v]> s) tr /\
    pool_ok pool (Appliance.with_pool x v) /\
    (pool = None -> x = vs_pool v).
Proof.
  intros Hv. destruct pool as [p |].
  - destruct (set_pool_post s name v (Some p) Hv) as (b & x & tr & E & O).
    exists b, x, tr. split; [exact E | split; [exact O | discriminate]].
  - exists false, (vs_pool v), [Api.get_default_pool_name name].
    assert (Hok : pool_ok None v) by (intros ? H; discriminate).
    rewrite (set_pool_noop s name v _ Hv Hok).
    rewrite insert_same by (rewrite Hv; now destruct v).
    split; [reflexivity | split; [| reflexivity]]. intros ? H. discriminate.
Qed.

Lemma set_description_post_frame (s : gmap string VirtualServer) (name : string)
      (v : VirtualServer) (description : option string) :
  s !! name = Some v ->
  exists b x tr,
    run Appliance.handle (set_description name description) s =
    mkRun (Returned b) (<[name := Appliance.with_description x v]> s) tr /\
    description_ok description (Appliance.with_description x v) /\
    (description = None -> x = vs_description v).
Proof.
  intros Hv. destruct description as [d |].
  - destruct (set_description_post s name v (Some d) Hv) as (b & x & tr & E & O).
    exists b, x, tr. split; [exact E | split; [exact O | discriminate]].
  - exists false, (vs_description v), [Api.get_description name].
    assert (Hok : description_ok None v) by (intros ? H; discriminate).
    rewrite (set_description_noop s name v _ Hv Hok).
    rewrite insert_same by (rewrite Hv; now destruct v).
    split; [reflexivity | split; [| reflexivity]]. intros ? H. discriminate.
Qed.

Lemma set_snat_post_frame (s : gmap string VirtualServer) (name : string)
      (v : VirtualServer) (snat : option string) :
  s !! name = Some v ->
  exists b x tr,
    run Appliance.handle (set_snat name snat) s =
    mkRun (Returned b) (<[name := Appliance.with_snat x v]> s) tr /\
    snat_ok snat (Appliance.with_snat x v) /\
    (snat = None -> x = vs_snat v).
Proof.
  intros Hv. destruct snat as [t |].
  - destruct (set_snat_post s name v (Some t) Hv) as (b & x & tr & E & O).
    exists b, x, tr. split; [exact E | split; [exact O | discriminate]].
  - exists false, (vs_snat v), [Api.get_source_address_translation_type name].
    assert (Hok : snat_ok None v) by (split; discriminate).
    rewrite (set_snat_noop s name v _ Hv Hok).
    rewrite insert_same by (rewrite Hv; now destruct v).
    split; [reflexivity | split; [| reflexivity]]. split; discriminate.
Qed.

Lemma set_profiles_post_frame (s : gmap string VirtualServer) (name : string)
      (v : VirtualServer) (profiles : option (list string)) :
  s !! name = Some v ->
  exists b x tr,
    run Appliance.handle (set_profiles name profiles) s =
    mkRun (Returned b) (<[name := Appliance.with_profiles x v]> s) tr /\
    profiles_ok profiles (Appliance.with_profiles x v) /\
    (profiles = None -> x = vs_profiles v).
Proof.
  intros Hv. destruct profiles as [P |].
  - destruct (set_profiles_post s name v (Some P) Hv) as (b & x & tr & E & O).
    exists b, x, tr. split; [exact E | split; [exact O | discriminate]].
  - exists false, (vs_profiles v), [].
    assert (Hok : profiles_ok None v) by (intros ? H; discriminate).
    rewrite (set_profiles_noop s name v _ Hv Hok).
    rewrite insert_same by (rewrite Hv; now destruct v).
    split; [reflexivity | split; [| reflexivity]]. intros ? H. discriminate.
Qed.

(** X12: a live update against the test double.  Desired state present
    outside check mode, the server exists: the invocation reports a result,
    and afterwards the server has every attribute that was supplied
    (destination and port as a pair, pool, description, SNAT mode, and
    profiles with nothing left to add or remove), every attribute that was
    not supplied keeps its value, and no other server has changed. *)
Theorem live_update_converges (m : AnsibleModule) (s : gmap string VirtualServer)
        (v : VirtualServer) :
  check_mode m = false -> param_state m = present ->
  let name := fq_name (param_partition m) (param_name m) in
  s !! name = Some v ->
  let r := run Appliance.handle (main m) s in
  exists res v',
    out r = Exited (exit_json res) /\
    final r = <[name := v']> s /\
    converged (param_partition m) (param_destination m) (param_port m)
              (fq_list_names (param_partition m) (param_all_profiles m))
              (fq_name_opt (param_partition m) (param_pool m))
              (param_description m) (param_snat m) v' /\
    (param_destination m = None \/ param_port m = None ->
     vs_destination v' = vs_destination v) /\
    (param_pool m = None -> vs_pool v' = vs_pool v) /\
    (param_description m = None -> vs_description v' = vs_description v) /\
    (param_snat m = None -> vs_snat v' = vs_snat v) /\
    (param_all_profiles m = None -> vs_profiles v' = vs_profiles v).
Proof.
  intros Hcm Hst name Hv. cbn zeta.
  rewrite run_main. unfold main_try. rewrite Hst, Hcm. fold name.
  rewrite run_bind, (run_present_create_exists s false _ _ _ _ _ _ _ v Hv).
  cbn zeta. cbn [out final trace].
  destruct (set_destination_post_frame s name v
              (fq_name_opt (param_partition m) (param_destination m)) (param_port m) Hv)
    as (b1 & x1 & t1 & E1 & O1 & K1).
  set (v1 := Appliance.with_destination x1 v) in *.
  set (s1 := <[name := v1]> s) in *.
  assert (Hv1 : s1 !! name = Some v1) by apply lookup_insert_eq.
  destruct (set_pool_post_frame s1 name v1
              (fq_name_opt (param_partition m) (param_pool m)) Hv1)
    as (b2 & x2 & t2 & E2 & O2 & K2).
  set (v2 := Appliance.with_pool x2 v1) in *.
  set (s2 := <[name := v2]> s1) in *.
  assert (Hv2 : s2 !! name = Some v2) by apply lookup_insert_eq.
  destruct (set_description_post_frame s2 name v2 (param_description m) Hv2)
    as (b3 & x3 & t3 & E3 & O3 & K3).
  set (v3 := Appliance.with_description x3 v2) in *.
  set (s3 := <[name := v3]> s2) in *.
  assert (Hv3 : s3 !! name = Some v3) by apply lookup_insert_eq.
  destruct (set_snat_post_frame s3 name v3 (param_snat m) Hv3)
    as (b4 & x4 & t4 & E4 & O4 & K4).
  set (v4 := Appliance.with_snat x4 v3) in *.
  set (s4 := <[name := v4]> s3) in *.
  assert (Hv4 : s4 !! name = Some v4) by apply lookup_insert_eq.
  destruct (set_profiles_post_frame s4 name v4
              (fq_list_names (param_partition m) (param_all_profiles m)) Hv4)
    as (b5 & x5 & t5 & E5 & O5 & K5).
  set (v5 := Appliance.with_profiles x5 v4) in *.
  unfold main_present_update. cbn [negb].
  rewrite run_bind, (run_invoke Appliance.handle Api.start_transaction).
  cbn [Appliance.handle fst snd out final trace].
  rewrite run_bind, E1. cbn [out final trace].
  rewrite run_bind, E2. cbn [out final trace].
  rewrite run_bind, E3. cbn [out final trace].
  rewrite run_bind, E4. cbn [out final trace].
  rewrite run_bind, E5. cbn [out final trace].
  rewrite run_bind, (run_invoke Appliance.handle Api.submit_transaction).
  cbn [Appliance.handle fst snd out final trace run].
  eexists. exists v5. split; [reflexivity |]. split.
  { subst s4 s3 s2 s1. now rewrite !insert_insert_eq. }
  clear E1 E2 E3 E4 E5 Hv1 Hv2 Hv3 Hv4.
  unfold converged, destination_ok, pool_ok, description_ok, snat_ok, profiles_ok in *.
  subst v5 v4 v3 v2 v1. cbn in *.
  repeat split; try tauto; auto.
  - now apply O5.
  - now apply O5.
  - intros Hn. apply K1. destruct Hn as [Hn | Hn]; [left | right; exact Hn].
    now rewrite Hn.
  - intros Hn. apply K2. now rewrite Hn.
  - intros Hn. apply K5. now rewrite Hn.
Qed.

Lemma live_update_converges_witness :
  let m := mkModule false present "Common" "vs1" (Some "10.0.0.9") (Some 8080%Z)
                    (Some ["clientssl"]) None (Some "") (Some "Automap") in
  let r := run Appliance.handle (main m) one_server in
  exists res v',
    out r = Exited (exit_json res) /\
    final r = <["/Common/vs1" := v']> one_server /\
    converged "Common" (Some "10.0.0.9") (Some 8080%Z) (Some ["/Common/clientssl"])
              None (Some "") (Some "Automap") v' /\
    (Some "10.0.0.9" = None \/ Some 8080%Z = None ->
     vs_destination v' = vs_destination sample_vs) /\
    (@None string = None -> vs_pool v' = vs_pool sample_vs) /\
    (Some "" = None -> vs_description v' = vs_description sample_vs) /\
    (Some "Automap" = None -> vs_snat v' = vs_snat sample_vs) /\
    (Some ["clientssl"] = None -> vs_profiles v' = vs_profiles sample_vs).
Proof.
  apply (live_update_converges
           (mkModule false present "Common" "vs1" (Some "10.0.0.9") (Some 8080%Z)
                     (Some ["clientssl"]) None (Some "") (Some "Automap"))
           one_server sample_vs).
  - reflexivity.
  - reflexivity.
  - vm_compute. reflexivity.
Defined.

(** ** The two profile lists *)

(** X15: the lists [set_profiles] computes.  A profile is added exactly
    when it is desired and not current; a profile is removed exactly when it
    is current, not desired and not [/Common/tcp]; no profile is both added
    and removed; and every entry is sent with the context
    [PROFILE_CONTEXT_TYPE_ALL]. *)
Theorem profile_lists_membership (P C : list string) :
  (forall x, In x (map profile_name (to_add_profiles P C)) <-> In x P /\ ~ In x C) /\
  (forall x, In x (map profile_name (to_del_profiles P C)) <->
             In x C /\ ~ In x P /\ x <> "/Common/tcp") /\
  (forall x, ~ (In x (map profile_name (to_add_profiles P C)) /\
                In x (map profile_name (to_del_profiles P C)))) /\
  (forall q, In q (to_add_profiles P C ++ to_del_profiles P C)%list ->
             profile_context q = "PROFILE_CONTEXT_TYPE_ALL").
Proof.
  assert (Hadd : forall x, In x (map profile_name (to_add_profiles P C)) <->
                           In x P /\ ~ In x C).
  { intros x. unfold to_add_profiles. rewrite names_all_context, filter_In.
    split; intros [H1 H2]; (split; [exact H1 |]).
    - intros Hc. apply mem_In in Hc. rewrite Hc in H2. discriminate.
    - destruct (mem x C) eqn:E; [| reflexivity]. apply mem_In in E. contradiction. }
  assert (Hdel : forall x, In x (map profile_name (to_del_profiles P C)) <->
                           In x C /\ ~ In x P /\ x <> "/Common/tcp").
  { intros x. unfold to_del_profiles. rewrite names_all_context, filter_In.
    split.
    - intros [H1 H2]. apply andb_true_iff in H2. destruct H2 as [H2 H3].
      split; [exact H1 |]. split.
      + intros Hp. apply mem_In in Hp. rewrite Hp in H2. discriminate.
      + apply String.eqb_neq. now apply negb_true_iff.
    - intros (H1 & H2 & H3). split; [exact H1 |]. apply andb_true_iff. split.
      + destruct (mem x P) eqn:E; [| reflexivity]. apply mem_In in E. contradiction.
      + apply negb_true_iff. now apply String.eqb_neq. }
  split; [exact Hadd |]. split; [exact Hdel |]. split.
  - intros x [Ha Hd]. apply Hadd in Ha. apply Hdel in Hd. tauto.
  - intros q Hq. apply in_app_iff in Hq. unfold to_add_profiles, to_del_profiles in Hq.
    destruct Hq as [Hq | Hq]; apply in_map_iff in Hq; destruct Hq as (x & <- & _);
      reflexivity.
Qed.

(** X16: an empty desired list is not the same as no list.  With
    [all_profiles] unset [set_profiles] makes no call; with the empty list it
    reads the profiles, never adds one, and removes every current profile
    except [/Common/tcp] in one call (no call when nothing else is
    attached). *)
Theorem empty_profile_list_strips_all_but_tcp {R} (h : handler R) (name : string)
        (s s1 : R) (cur : list VSProfile) :
  h (Api.get_profile name) s = (inr cur, s1) ->
  let others := List.filter (fun x => negb (x =? "/Common/tcp")) (map profile_name cur) in
  trace (run h (set_profiles name None) s) = [] /\
  trace (run h (set_profiles name (Some [])) s) =
  Api.get_profile name
    :: (if nonempty others
        then [Api.remove_profile name (map all_context others)]
        else []).
Proof.
  intros Hget others. split; [reflexivity |].
  unfold set_profiles, get_profiles.
  rewrite run_bind, (run_invoke h (Api.get_profile name)), Hget.
  cbn [fst snd out final trace].
  rewrite !length_pos_nonempty.
  replace (to_add_profiles [] (map profile_name cur)) with (@nil VSProfile) by reflexivity.
  replace (to_del_profiles [] (map profile_name cur)) with (map all_context others)
    by reflexivity.
  rewrite run_bind.
  replace (nonempty (map all_context others)) with (nonempty others)
    by now destruct others.
  destruct (nonempty others); cbn [nonempty].
  - rewrite run_bind, (run_invoke h (Api.remove_profile name (map all_context others))).
    destruct (h (Api.remove_profile name (map all_context others)) s1) as [[e | []] s2];
      reflexivity.
  - reflexivity.
Qed.

Lemma empty_profile_list_strips_all_but_tcp_witness :
  trace (run Appliance.handle (set_profiles "/Common/vs1" None) one_server) = [] /\
  trace (run Appliance.handle (set_profiles "/Common/vs1" (Some [])) one_server) =
  [Api.get_profile "/Common/vs1";
   Api.remove_profile "/Common/vs1" [all_context "/Common/http"]].
Proof.
  apply (empty_profile_list_strips_all_but_tcp Appliance.handle "/Common/vs1"
           one_server one_server (vs_profiles sample_vs)).
  vm_compute. reflexivity.
Defined.

(** ** No short-circuit *)

Ltac cooperative h Hnf :=
  repeat first
    [ match goal with
      | |- context [h ?c ?s] =>
          let v := fresh "v" in
          let Hv := fresh "Hv" in
          destruct (Hnf c s) as [v Hv];
          destruct (h c s) as [[? | ?] ?]; simpl in Hv; [discriminate Hv |];
          clear Hv v; simpl
      end
    | match goal with
      | |- context [if ?b then _ else _] => destruct b; simpl
      | |- context [match ?o with Some _ => _ | None => _ end] => destruct o; simpl
      end ];
  eexists; split; reflexivity.

Lemma set_destination_reads_once {R} (h : handler R) (s : R) (name : string)
      (destination : option string) (port : option Z) :
  never_fails h ->
  exists b, out (run h (set_destination name destination port) s) = Returned b /\
            reads (trace (run h (set_destination name destination port) s)) =
            [Api.get_destination_v2 name].
Proof. intros Hnf. unfold set_destination, get_destination, reads; simpl. cooperative h Hnf. Qed.

Lemma set_pool_reads_once {R} (h : handler R) (s : R) (name : string)
      (pool : option string) :
  never_fails h ->
  exists b, out (run h (set_pool name pool) s) = Returned b /\
            reads (trace (run h (set_pool name pool) s)) =
            [Api.get_default_pool_name name].
Proof. intros Hnf. unfold set_pool, get_pool, reads; simpl. cooperative h Hnf. Qed.

Lemma set_description_reads_once {R} (h : handler R) (s : R) (name : string)
      (description : option string) :
  never_fails h ->
  exists b, out (run h (set_description name description) s) = Returned b /\
            reads (trace (run h (set_description name description) s)) =
            [Api.get_description name].
Proof.
  intros Hnf. unfold set_description, get_description, reads; simpl. cooperative h Hnf.
Qed.

Lemma set_snat_reads_once {R} (h : handler R) (s : R) (name : string)
      (snat : option string) :
  never_fails h ->
  exists b, out (run h (set_snat name snat) s) = Returned b /\
            reads (trace (run h (set_snat name snat) s)) =
            [Api.get_source_address_translation_type name].
Proof. intros Hnf. unfold set_snat, get_snat_type, reads; simpl. cooperative h Hnf. Qed.

Lemma set_profiles_reads_once {R} (h : handler R) (s : R) (name : string)
      (profiles : option (list string)) :
  never_fails h ->
  exists b, out (run h (set_profiles name profiles) s) = Returned b /\
            reads (trace (run h (set_profiles name profiles) s)) =
            match profiles with Some _ => [Api.get_profile name] | None => [] end.
Proof.
  intros Hnf. destruct profiles as [P |]; [| now exists false].
  unfold set_profiles, get_profiles, reads; simpl. cooperative h Hnf.
Qed.

Lemma reads_app (t1 t2 : list Api.call) : reads (t1 ++ t2) = (reads t1 ++ reads t2)%list.
Proof. unfold reads. apply List.filter_app. Qed.

(** X17: no short-circuit on the update path.  Against an appliance on
    which no call fails, a live invocation for desired state present reports
    a result after every reconciler has run -- destination, pool,
    description, SNAT, profiles, in this order -- each reading its attribute
    once, whether or not an earlier one wrote.  Only the profile getter is
    skipped, when no profile list was given. *)
Theorem update_runs_every_reconciler {R} (h : handler R) (m : AnsibleModule) (s : R) :
  never_fails h ->
  param_state m = present ->
  check_mode m = false ->
  let name := fq_name (param_partition m) (param_name m) in
  let r := run h (main m) s in
  (exists res, out r = Exited (exit_json res)) /\
  reads (trace r) =
  ([Api.get_object_status name;
    Api.get_destination_v2 name;
    Api.get_default_pool_name name;
    Api.get_description name;
    Api.get_source_address_translation_type name]
     ++ match param_all_profiles m with
        | Some _ => [Api.get_profile name]
        | None => []
        end)%list.
Proof.
  intros Hnf Hst Hcm name. cbn zeta.
  rewrite run_main. unfold main_try. rewrite Hst, Hcm. fold name.
  destruct (Hnf (Api.get_object_status name) s) as [[] Hget].
  destruct (h (Api.get_object_status name) s) as [a s1] eqn:Ea. simpl in Hget. subst a.
  rewrite run_bind, (run_present_create_answered h name _ _ _ _ _ _ s s1 _ Ea).
  cbn zeta. cbn [out final trace].
  unfold main_present_update. cbn [negb].
  rewrite run_bind, (run_invoke h Api.start_transaction).
  destruct (Hnf Api.start_transaction s1) as [[] Hs].
  destruct (h Api.start_transaction s1) as [a s2]. simpl in Hs. subst a.
  cbn [fst snd out final trace].
  rewrite run_bind.
  destruct (set_destination_reads_once h s2 name
              (fq_name_opt (param_partition m) (param_destination m)) (param_port m) Hnf)
    as (b1 & O1 & T1).
  destruct (run h (set_destination _ _ _) s2) as [o1 f1 t1]. cbn [out trace] in O1, T1.
  subst o1. cbn [out final trace].
  rewrite run_bind.
  destruct (set_pool_reads_once h f1 name
              (fq_name_opt (param_partition m) (param_pool m)) Hnf) as (b2 & O2 & T2).
  destruct (run h (set_pool _ _) f1) as [o2 f2 t2]. cbn [out trace] in O2, T2.
  subst o2. cbn [out final trace].
  rewrite run_bind.
  destruct (set_description_reads_once h f2 name (param_description m) Hnf)
    as (b3 & O3 & T3).
  destruct (run h (set_description _ _) f2) as [o3 f3 t3]. cbn [out trace] in O3, T3.
  subst o3. cbn [out final trace].
  rewrite run_bind.
  destruct (set_snat_reads_once h f3 name (param_snat m) Hnf) as (b4 & O4 & T4).
  destruct (run h (set_snat _ _) f3) as [o4 f4 t4]. cbn [out trace] in O4, T4.
  subst o4. cbn [out final trace].
  rewrite run_bind.
  destruct (set_profiles_reads_once h f4 name
              (fq_list_names (param_partition m) (param_all_profiles m)) Hnf)
    as (b5 & O5 & T5).
  destruct (run h (set_profiles _ _) f4) as [o5 f5 t5]. cbn [out trace] in O5, T5.
  subst o5. cbn [out final trace].
  rewrite run_bind, (run_invoke h Api.submit_transaction).
  destruct (Hnf Api.submit_transaction f5) as [[] Hsub].
  destruct (h Api.submit_transaction f5) as [a s3]. simpl in Hsub. subst a.
  cbn [fst snd out final trace run].
  split; [eexists; reflexivity |].
  change (?x :: ?l ++ [])%list with ([x] ++ l ++ [])%list.
  cbn [app]. unfold reads at 1. cbn [List.filter Api.is_mutating negb].
  fold (reads (t1 ++ (t2 ++ (t3 ++ (t4 ++ (t5 ++ [Api.submit_transaction] ++ [])) ++ [])
                         ++ []) ++ [])).
  rewrite !reads_app, T1, T2, T3, T4, T5.
  destruct (param_all_profiles m); reflexivity.
Qed.

Lemma update_runs_every_reconciler_witness :
  let r := run agreeable (main (sample_module false present)) tt in
  (exists res, out r = Exited (exit_json res)) /\
  reads (trace r) =
  [Api.get_object_status "/Common/vs1";
   Api.get_destination_v2 "/Common/vs1";
   Api.get_default_pool_name "/Common/vs1";
   Api.get_description "/Common/vs1";
   Api.get_source_address_translation_type "/Common/vs1";
   Api.get_profile "/Common/vs1"].
Proof.
  apply (update_runs_every_reconciler agreeable (sample_module false present) tt).
  - intros c s. eexists. reflexivity.
  - reflexivity.
  - reflexivity.
Defined.
